(** * AaronWard/llms: the authored Python of the notebooks, embedded in Rocq

    The repository is a collection of notebooks and notes.  The Python
    that its author wrote lives in notebook code cells:

    - [learning/controlflow/examples/example3.ipynb]: two review tools,
      a result validator and two flow functions around [cf.run];
    - the notebook stored after the prompt text in
      [personal_projects/31.ai-youtube-analysis/prompts/summarize.txt]:
      a BeautifulSoup scraping cell and the recursive
      [get_comments_with_replies].

    What the outside does ([cf.run], [requests.get], the HTML parser,
    the clock) is never fixed here: it is a section variable acting on
    an unknown world.  What the code relies on from Python and from
    BeautifulSoup on values it already holds ([str.strip],
    [str.replace], [dict], [find], [find_all], [.text]) is written out.

    The last part looks at [summarize.txt] as it is stored: prompt
    text followed by the JSON of the scraping notebook.

    The other cells of that notebook follow: the Selenium cell, the
    loop over the posts around [get_comments_with_replies], and the
    cell that writes the file. *)

From Stdlib Require Import Ascii String.
From stdpp Require Import base option list gmap strings pretty.

Set Warnings "-register-all".
Open Scope Z_scope.

(** ** Python values shared by the notebooks *)

(** A Python [str] is a sequence of Unicode code points. *)
Module PyStr.

Abbreviation str := (list N).

(** An ASCII literal of the source, as code points. *)
Definition lit (s : string) : str :=
  N_of_ascii <$> list_ascii_of_string s.

(** [str.isspace] on one character: the code points CPython lists in
    [_PyUnicode_IsWhitespace]. *)
Definition isspace (c : N) : bool :=
  ((9 <=? c) && (c <=? 13) || (28 <=? c) && (c <=? 32)
   || (c =? 133) || (c =? 160) || (c =? 5760)
   || (8192 <=? c) && (c <=? 8202)
   || (c =? 8232) || (c =? 8233) || (c =? 8239) || (c =? 8287)
   || (c =? 12288))%N.

Fixpoint lstrip (s : str) : str :=
  match s with
  | c :: s' => if isspace c then lstrip s' else s
  | [] => []
  end.

Definition rstrip (s : str) : str := reverse (lstrip (reverse s)).

(** [s.strip()]: whitespace removed at both ends. *)
Definition strip (s : str) : str := rstrip (lstrip s).

(** [s.replace(old, new)] for a one-character [old]. *)
Definition replace_char (old : N) (new : str) (s : str) : str :=
  c ← s; if decide (c = old) then new else [c].

(** [s * n]: the empty string when [n] is not positive. *)
Definition mul (s : str) (n : Z) : str :=
  mjoin (replicate (Z.to_nat n) s).

(** [str(n)] for an [int]. *)
Definition of_int (n : Z) : str := lit (pretty n).

Definition newline : N := 10%N.

End PyStr.
Import PyStr.

(** Exceptions that the modelled code raises or lets through. *)
Inductive PyExn : Type :=
  | ValueError (msg : str)
  | KeyError (key : str)
  | NameError (name : string)
  | TypeError (msg : string)
  | LibraryError (msg : str).

(** What a call does: it returns a value or raises. *)
Inductive Outcome (A : Type) : Type :=
  | Returns (a : A)
  | Raises (e : PyExn).
Arguments Returns {A} a.
Arguments Raises {A} e.

(** Code that reads and changes a state [S] and may raise.  A raise
    keeps the state reached so far, as in Python. *)
Definition Eff (S A : Type) : Type := S → Outcome A * S.

Definition eff_ret {S A} (a : A) : Eff S A := λ s, (Returns a, s).

Definition eff_bind {S A B} (m : Eff S A) (k : A → Eff S B) : Eff S B :=
  λ s, match m s with
       | (Returns a, s') => k a s'
       | (Raises e, s') => (Raises e, s')
       end.

Definition raise {S A} (e : PyExn) : Eff S A := λ s, (Raises e, s).

#[global] Instance Eff_ret {S} : MRet (Eff S) := λ A, eff_ret.
#[global] Instance Eff_bind {S} : MBind (Eff S) := λ A B k m, eff_bind m k.

(** ** learning/controlflow/examples/example3.ipynb *)
Module ControlFlow.

(** [class CodeReview(BaseModel)] *)
Record CodeReview : Type := mkCodeReview {
  status : str;
  issues : list str;
  suggestions : list str;
  approval : bool
}.

(** [def approve_code(result: CodeReview)] *)
Definition approve_code (result : CodeReview) : CodeReview :=
  {| status := lit "approved";
     issues := [];
     suggestions := [lit "Code meets all quality standards"];
     approval := true |}.

(** [def reject_code(issues: List[str])] *)
Definition reject_code (issues : list str) : CodeReview :=
  {| status := lit "rejected";
     issues := issues;
     suggestions := [];
     approval := false |}.

(** [class NumberResult(BaseModel)] *)
Record NumberResult : Type := mkNumberResult { number : Z }.

(** [def validate_even(result: NumberResult) -> NumberResult].
    Python's [%] with a positive divisor is [Z.modulo]. *)
Definition validate_even (result : NumberResult) : Outcome NumberResult :=
  if negb (number result `mod` 2 =? 0)
  then Raises (ValueError (lit "The number must be even."))
  else Returns result.

(** Values handed to and received from the framework. *)
Inductive Value : Type :=
  | VNone
  | VInt (n : Z)
  | VStr (s : str)
  | VStrList (l : list str)
  | VCodeReview (c : CodeReview)
  | VNumberResult (r : NumberResult).

(** The classes named as [result_type]. *)
Inductive ResultType : Type := CodeReviewT | NumberResultT.

(** The Python callables listed as an agent's tools. *)
Inductive Tool : Type :=
  | ToolOnCodeReview (f : CodeReview → CodeReview)
  | ToolOnIssues (f : list str → CodeReview).

(** [cf.Agent(name=, model=, instructions=, tools=)] *)
Record Agent : Type := mkAgent {
  name : str;
  model : str;
  instructions : str;
  tools : list Tool
}.

Definition reviewer : Agent :=
  {| name := lit "Code Reviewer";
     model := lit "openai/gpt-4";
     instructions :=
       lit "You are an expert code reviewer. " ++ [newline] ++
       lit "    Analyze code for issues and provide constructive feedback."
         ++ [newline] ++
       lit "    Only approve code that meets all quality standards.";
     tools := [ToolOnCodeReview approve_code; ToolOnIssues reject_code] |}.

(** The keyword arguments of one [cf.run] call; an argument that a
    call does not pass is [None]. *)
Record RunArgs : Type := mkRunArgs {
  objective : str;
  result_type : ResultType;
  agents : option (list Agent);
  result_validator : option (NumberResult → Outcome NumberResult);
  context : list (str * Value)
}.

Section Framework.

(** The framework and everything behind it (the LLM, Prefect): an
    unknown state and an unknown [cf.run]. *)
Variable World : Type.
Variable cf_run : RunArgs → World → Outcome Value * World.

(** The flows run against the framework's state and the list of
    [cf.run] calls made so far. *)
Definition Flow (A : Type) : Type := Eff (World * list RunArgs) A.

(** One invocation of [cf.run]. *)
Definition call_cf_run (args : RunArgs) : Flow Value :=
  λ '(w, calls),
    let '(r, w') := cf_run args w in (r, (w', calls ++ [args])).

Definition review_code_args (code : str) : RunArgs :=
  {| objective :=
       lit "Review the provided code and either approve or reject it";
     result_type := CodeReviewT;
     agents := Some [reviewer];
     result_validator := None;
     context :=
       [(lit "code", VStr code);
        (lit "requirements",
         VStrList [lit "Check for proper variable naming";
                   lit "Verify code efficiency";
                   lit "Look for potential bugs";
                   lit "Ensure code readability"])] |}.

(** [def review_code(code: str)], the function under [@cf.flow]
    (the decorator itself is the framework's). *)
Definition review_code (code : str) : Flow Value :=
  result ← call_cf_run (review_code_args code);
  mret result.

Definition check_even_number_args (number : Z) : RunArgs :=
  {| objective := lit "Check if the number is even";
     result_type := NumberResultT;
     agents := None;
     result_validator := Some validate_even;
     context := [(lit "number", VInt number)] |}.

(** [def check_even_number(number: int)], under [@cf.flow]. *)
Definition check_even_number (number : Z) : Flow Value :=
  result ← call_cf_run (check_even_number_args number);
  mret result.

End Framework.

End ControlFlow.

(** ** The notebook inside prompts/summarize.txt: scraping r/LocalLLaMA *)

(** A Python [dict] that is iterated: bindings in insertion order, one
    per key.  Assigning to a key that is present keeps its place. *)
Module PyDict.

Abbreviation t V := (list (str * V)).

Fixpoint get {V} (d : t V) (k : str) : option V :=
  match d with
  | [] => None
  | (k', v) :: d' => if decide (k = k') then Some v else get d' k
  end.

Fixpoint set {V} (d : t V) (k : str) (v : V) : t V :=
  match d with
  | [] => [(k, v)]
  | (k', v') :: d' =>
      if decide (k = k') then (k', v) :: d' else (k', v') :: set d' k v
  end.

Definition keys {V} (d : t V) : list str := fst <$> d.

End PyDict.

(** The part of a BeautifulSoup tree that the scraper looks at. *)
Module BS4.

(** A page element: a string that counts as text, a string that does
    not (comment, doctype, script or style content), or a tag with
    its attribute dictionary and children.  Attribute values are
    strings, as they are for [slot], [href] and
    [data-post-click-location], the three the cell reads. *)
Inductive Node : Type :=
  | NavigableString (s : str)
  | SpecialString (s : str)
  | Tag (name : str) (attrs : gmap str str) (children : list Node).

(** [tag.descendants]: everything below a node, in document order. *)
Fixpoint descendants (n : Node) : list Node :=
  match n with
  | Tag _ _ cs => c ← cs; c :: descendants c
  | _ => []
  end.

(** Does a node match [find(name, attrs)] with one attribute? *)
Definition matches (name : str) (attr : option (str * str)) (n : Node)
  : bool :=
  match n with
  | Tag nm ats _ =>
      bool_decide (nm = name) &&
      match attr with
      | Some (k, v) => bool_decide (ats !! k = Some v)
      | None => true
      end
  | _ => false
  end.

(** [tag.find_all(name, attrs)] and [tag.find(name, attrs)]. *)
Definition find_all_in (ns : list Node) (name : str)
    (attr : option (str * str)) : list Node :=
  List.filter (matches name attr) (n ← ns; n :: descendants n).

Definition find_all (n : Node) name attr : list Node :=
  List.filter (matches name attr) (descendants n).

Definition find (n : Node) name attr : option Node :=
  head (find_all n name attr).

(** [tag.text]: the text strings below the node, concatenated. *)
Fixpoint text (n : Node) : str :=
  match n with
  | NavigableString s => s
  | SpecialString _ => []
  | Tag _ _ cs => c ← cs; text c
  end.

(** [tag.attrs.get(key)] *)
Definition attr (n : Node) (key : str) : option str :=
  match n with
  | Tag _ ats _ => ats !! key
  | _ => None
  end.

(** [tag[key]] *)
Definition getitem (n : Node) (key : str) : Outcome str :=
  match attr n key with
  | Some v => Returns v
  | None => Raises (KeyError key)
  end.

End BS4.

(** The cell under the heading "Just using BeautiflSoup". *)
Module Scraper.
Import BS4.

(** What [requests.get] returns, as far as the cell reads it. *)
Record Response : Type := mkResponse {
  status_code : Z;
  text : str
}.

(** The objects bound to names in the notebook's kernel. *)
Inductive Value : Type :=
  | VNone
  | VStr (s : str)
  | VHeaders (h : gmap str str)
  | VResponse (r : Response)
  | VSoup (roots : list Node)
  | VTag (n : Node)
  | VDatetime (t : Z)
  | VDetails (d : gmap str str)
  | VPosts (d : PyDict.t (gmap str str)).

(** What a run of the cell does to the outside, in order. *)
Inductive Event : Type :=
  | Fetch (url : str) (headers : gmap str str)
  | Parse (markup : str)
  | Print (line : str).

Definition url_hot : str := lit "https://www.reddit.com/r/LocalLLaMA/hot/".

Definition user_agent : str :=
  lit "Mozilla/5.0 (Windows NT 10.0; Win64; x64) AppleWebKit/537.36 (KHTML, like Gecko) Chrome/58.0.3029.110 Safari/537.3".

(** The [headers] dictionary of the cell. *)
Definition headers_sent : gmap str str :=
  {[ lit "User-Agent" := user_agent ]}.

Definition slot_title : option (str * str) :=
  Some (lit "slot", lit "title").

Definition text_body : option (str * str) :=
  Some (lit "data-post-click-location", lit "text-body").

(** The dictionary stored for one post. *)
Definition details_of (link content_text : str) : gmap str str :=
  {[ lit "link" := link;
     lit "content" := replace_char newline [] (rstrip content_text) ]}.

Section Cell.

(** The network, the clock and the HTML parser are not the
    notebook's: an unknown state, and unknown functions on it. *)
Variable World : Type.
Variable requests_get :
  str → gmap str str → World → Outcome Response * World.
Variable datetime_now : World → Z * World.
Variable html_parser : str → list Node.

(** A running kernel: the outside world, the global names (a cell's
    loop variables are globals too) and what has been done so far. *)
Record Kernel : Type := mkKernel {
  world : World;
  globals : gmap string Value;
  events : list Event
}.

Definition Cell (A : Type) : Type := Eff Kernel A.

(** [name = v] *)
Definition assign (name : string) (v : Value) : Cell () :=
  λ k, (Returns (),
        {| world := world k;
           globals := <[name := v]> (globals k);
           events := events k |}).

Definition emit (e : Event) : Cell () :=
  λ k, (Returns (),
        {| world := world k;
           globals := globals k;
           events := events k ++ [e] |}).

(** [requests.get(url, headers=headers)] *)
Definition get (url : str) (headers : gmap str str) : Cell Response :=
  λ k, let '(r, w) := requests_get url headers (world k) in
       (r, {| world := w;
              globals := globals k;
              events := events k ++ [Fetch url headers] |}).

(** [datetime.now()] *)
Definition now : Cell Z :=
  λ k, let '(t, w) := datetime_now (world k) in
       (Returns t,
        {| world := w; globals := globals k; events := events k |}).

(** [BeautifulSoup(markup, 'html.parser')] *)
Definition BeautifulSoup (markup : str) : Cell (list Node) :=
  emit (Parse markup);; mret (html_parser markup).

(** Reading the global [posts_details]. *)
Definition load_posts : Cell (PyDict.t (gmap str str)) :=
  λ k, match globals k !! "posts_details" with
       | Some (VPosts d) => (Returns d, k)
       | Some _ => (Raises (TypeError "not a dict"), k)
       | None => (Raises (NameError "posts_details"), k)
       end.

(** A value of another kind brought into the cell. *)
Definition lift {A} (o : Outcome A) : Cell A := λ k, (o, k).

(** [for x in xs: body] *)
Fixpoint for_each {A} (xs : list A) (body : A → Cell ()) : Cell () :=
  match xs with
  | [] => mret ()
  | x :: xs' => body x;; for_each xs' body
  end.

(** The body of [for article in soup.find_all('article')].  A
    [Tag] is always true, so [if title_tag:] asks whether [find]
    found one. *)
Definition article_body (article : Node) : Cell () :=
  assign "article" (VTag article);;
  let title_tag := find article (lit "a") slot_title in
  assign "title_tag" (from_option VTag VNone title_tag);;
  match title_tag with
  | Some title_tag =>
      let title := strip (BS4.text title_tag) in
      assign "title" (VStr title);;
      link ← lift (getitem title_tag (lit "href"));
      assign "link" (VStr link);;
      let content := find article (lit "div") text_body in
      assign "content" (from_option VTag VNone content);;
      let content_text :=
        match content with
        | Some content => strip (BS4.text content)
        | None => lit "No content"
        end in
      assign "content_text" (VStr content_text);;
      posts_details ← load_posts;
      assign "posts_details"
        (VPosts (PyDict.set posts_details title
                   (details_of link content_text)))
  | None => mret ()
  end.

(** [details[key]] *)
Definition field (details : gmap str str) (key : str) : Cell str :=
  match details !! key with
  | Some v => mret v
  | None => raise (KeyError key)
  end.

(** The body of [for title, details in posts_details.items()]. *)
Definition print_post (item : str * gmap str str) : Cell () :=
  let '(title, details) := item in
  assign "title" (VStr title);;
  assign "details" (VDetails details);;
  link ← field details (lit "link");
  content ← field details (lit "content");
  emit (Print (lit "Title: " ++ title ++ [newline] ++
               lit "Link: " ++ link ++ [newline] ++
               lit "Content: " ++ content ++ [newline])).

(** The whole cell. *)
Definition scraper_cell : Cell () :=
  assign "url" (VStr url_hot);;
  assign "headers" (VHeaders headers_sent);;
  response ← get url_hot headers_sent;
  assign "response" (VResponse response);;
  if status_code response =? 200 then
    soup ← BeautifulSoup (text response);
    assign "soup" (VSoup soup);;
    t ← now;
    assign "now" (VDatetime t);;
    assign "posts_details" (VPosts []);;
    for_each (find_all_in soup (lit "article") None) article_body;;
    posts_details ← load_posts;
    for_each posts_details print_post
  else
    emit (Print (lit "Failed to retrieve the webpage: Status code " ++
                 of_int (status_code response))).

(** The records bound to [posts_details] in a kernel: none when the
    name is unbound. *)
Definition posts_of (k : Kernel) : PyDict.t (gmap str str) :=
  match globals k !! "posts_details" with
  | Some (VPosts d) => d
  | _ => []
  end.

Definition fetches (k : Kernel) : list Event :=
  List.filter (λ e, match e with Fetch _ _ => true | _ => false end)
              (events k).

Definition parses (k : Kernel) : list Event :=
  List.filter (λ e, match e with Parse _ => true | _ => false end)
              (events k).

End Cell.

Arguments mkKernel {World}.
Arguments world {World}.
Arguments globals {World}.
Arguments events {World}.
Arguments posts_of {World}.
Arguments fetches {World}.
Arguments parses {World}.

(** *** The loop over the articles, without the kernel *)

(** What one pass of the article loop does to [posts_details]. *)
Definition collect_one (article : Node) (d : PyDict.t (gmap str str))
  : Outcome () * PyDict.t (gmap str str) :=
  match find article (lit "a") slot_title with
  | Some title_tag =>
      match getitem title_tag (lit "href") with
      | Returns link =>
          let content_text :=
            match find article (lit "div") text_body with
            | Some content => strip (BS4.text content)
            | None => lit "No content"
            end in
          (Returns (),
           PyDict.set d (strip (BS4.text title_tag))
                      (details_of link content_text))
      | Raises e => (Raises e, d)
      end
  | None => (Returns (), d)
  end.

Fixpoint collect (articles : list Node) (d : PyDict.t (gmap str str))
  : Outcome () * PyDict.t (gmap str str) :=
  match articles with
  | [] => (Returns (), d)
  | article :: rest =>
      match collect_one article d with
      | (Returns _, d') => collect rest d'
      | (Raises e, d') => (Raises e, d')
      end
  end.

(** *** The records, in the words of the description *)

(** The text kept for a post: the text-body text, stripped and with
    every newline taken out. *)
Definition content_kept (article : Node) : str :=
  match find article (lit "div") text_body with
  | Some content => replace_char newline [] (strip (BS4.text content))
  | None => lit "No content"
  end.

(** The text for a post when it is only stripped. *)
Definition content_stripped (article : Node) : str :=
  match find article (lit "div") text_body with
  | Some content => strip (BS4.text content)
  | None => lit "No content"
  end.

(** The record of an article: its key and its two fields, for a given
    reading of the content. *)
Definition record_with (content_of : Node → str) (article : Node)
  : option (str * gmap str str) :=
  title_tag ← find article (lit "a") slot_title;
  link ← attr title_tag (lit "href");
  Some (strip (BS4.text title_tag),
        {[ lit "link" := link; lit "content" := content_of article ]}).

(** Every title link carries an [href]. *)
Definition links_have_href (articles : list Node) : Prop :=
  Forall (λ article,
            ∀ title_tag,
              find article (lit "a") slot_title = Some title_tag →
              is_Some (attr title_tag (lit "href")))
         articles.

(** The record found under a key when the records of a list of
    articles are stored one after the other. *)
Definition last_record (content_of : Node → str) (articles : list Node)
    (key : str) : option (gmap str str) :=
  snd <$> last (List.filter (λ e, bool_decide (e.1 = key))
                            (omap (record_with content_of) articles)).

(** [f"Failed to retrieve the webpage: Status code {response.status_code}"] *)
Definition failure_line (r : Response) : str :=
  lit "Failed to retrieve the webpage: Status code " ++
  of_int (status_code r).

(** What the print loop writes for one stored record. *)
Definition print_line (e : str * gmap str str) : list Event :=
  match e.2 !! lit "link", e.2 !! lit "content" with
  | Some link, Some content =>
      [Print (lit "Title: " ++ e.1 ++ [newline] ++
              lit "Link: " ++ link ++ [newline] ++
              lit "Content: " ++ content ++ [newline])]
  | _, _ => []
  end.

(** A stored record has the two fields that the print loop reads. *)
Definition printable (e : str * gmap str str) : Prop :=
  ∃ link content_text, e.2 = details_of link content_text.

Section Statements.

Variable World : Type.
Variable requests_get :
  str → gmap str str → World → Outcome Response * World.
Variable datetime_now : World → Z * World.
Variable html_parser : str → list Node.

(** The kernel that a run of the cell leaves. *)
Definition after (k : Kernel World) : Kernel World :=
  (scraper_cell World requests_get datetime_now html_parser k).2.

(** "Every article with a title link contributes a record keyed by
    its stripped title, with 'link' the href and 'content' the
    stripped text-body text or 'No content'", for a run from [k]. *)
Definition records_as_described (k : Kernel World) : Prop :=
  ∀ r w',
    requests_get url_hot headers_sent (world k) = (Returns r, w') →
    status_code r = 200 →
    ∀ article title details,
      article ∈ find_all_in (html_parser (text r)) (lit "article") None →
      record_with content_stripped article = Some (title, details) →
      PyDict.get (posts_of (after k)) title = Some details.

(** "On a status other than 200: one fetch, nothing parsed, only
    the status reported, and [posts_details] empty", for a run
    from [k]. *)
Definition failure_as_described (k : Kernel World) : Prop :=
  ∀ r w',
    requests_get url_hot headers_sent (world k) = (Returns r, w') →
    status_code r ≠ 200 →
    events (after k) =
      events k ++ [Fetch url_hot headers_sent; Print (failure_line r)]
    ∧ posts_of (after k) = [].

End Statements.

End Scraper.

(** The PRAW cell: [get_comments_with_replies]. *)
Module Praw.

(** What sits in a comment forest: a comment with its body and, when
    the object has the attribute, its replies; or a
    [praw.models.MoreComments] placeholder standing for comments that
    were not loaded. *)
Inductive Item : Type :=
  | Comment (body : str) (replies : option (list Item))
  | MoreComments (hidden : list Item).

Inductive AttributeError_or (A : Type) : Type :=
  | Ok (a : A)
  | AttributeError (attr : string).
Arguments Ok {A} a.
Arguments AttributeError {A} attr.

(** [f"{spacer}- {comment.body}"] with [spacer = "  " * depth] *)
Definition format_line (depth : Z) (body : str) : str :=
  mul (lit "  ") depth ++ lit "- " ++ body.

(** [def get_comments_with_replies(comment, depth=0)].  The loop over
    [comment.replies] carries [comments_list]; a comment without the
    attribute gets [replies = []] first.  Only an object without a
    [body], a [MoreComments], makes the function raise, and the loop
    never passes one on. *)
Fixpoint get_comments_with_replies (comment : Item) (depth : Z)
  : AttributeError_or (list str) :=
  match comment with
  | MoreComments _ => AttributeError "body"
  | Comment body replies =>
      let loop :=
        fix loop (rs : list Item) (comments_list : list str) :=
          match rs with
          | [] => Ok comments_list
          | MoreComments _ :: rs' => loop rs' comments_list
          | reply :: rs' =>
              match get_comments_with_replies reply (depth + 1) with
              | Ok more => loop rs' (comments_list ++ more)
              | AttributeError a => AttributeError a
              end
          end in
      match replies with
      | Some replies => loop replies [format_line depth body]
      | None => loop [] [format_line depth body]
      end
  end.

(** The comments a traversal reaches from a comment, depth first,
    each with its nesting level below the start; a [MoreComments] and
    all it hides are passed over. *)
Fixpoint reached (level : nat) (comment : Item) : list (nat * str) :=
  match comment with
  | MoreComments _ => []
  | Comment body replies =>
      (level, body) ::
        match replies with
        | Some rs => r ← rs; reached (S level) r
        | None => []
        end
  end.

(** The lines for the comments reached from [comment], when a
    comment [level] levels below the start is indented by
    [start + level] double spaces. *)
Definition lines_from (start : Z) (comment : Item) : list str :=
  (λ '(level, body), format_line (start + Z.of_nat level) body)
    <$> reached 0 comment.

(** "Two spaces of indentation per nesting level below the starting
    depth": the starting depth itself adds nothing. *)
Definition lines_as_described (comment : Item) : list str :=
  lines_from 0 comment.

(** The same lines, seen from a comment that sits at [level] and is
    printed at [depth]. *)
Definition lines_at (depth : Z) (level : nat) (c : Item) : list str :=
  (λ '(l, body), format_line (depth + (Z.of_nat l - Z.of_nat level)) body)
    <$> reached level c.

(** Induction on comment trees, with the replies of a comment and the
    comments behind a placeholder as induction hypotheses. *)
Section Item_induction.
Variable P : Item → Prop.
Hypothesis on_comment :
  ∀ body replies,
    (∀ rs, replies = Some rs → Forall P rs) → P (Comment body replies).
Hypothesis on_more : ∀ hidden, Forall P hidden → P (MoreComments hidden).

Fixpoint Item_nested_ind (c : Item) : P c :=
  let all :=
    fix all (l : list Item) : Forall P l :=
      match l with
      | [] => Forall_nil_2 P
      | x :: l' => Forall_cons_2 P x l' (Item_nested_ind x) (all l')
      end in
  match c with
  | Comment body replies =>
      on_comment body replies
        (λ rs E,
           match replies as o return o = Some rs → Forall P rs with
           | Some rs' => λ E', eq_ind rs' (Forall P) (all rs') rs
                                 (Some_inj _ _ E')
           | None => λ E', match Some_ne_None _ (eq_sym E') with end
           end E)
  | MoreComments hidden => on_more hidden (all hidden)
  end.
End Item_induction.

End Praw.

(** ** The files as they are stored *)
Module Repository.

Inductive CellType : Type := markdown | code.

(** One cell of a notebook's JSON: its type and its source lines
    (without the newline at the end of each). *)
Record NotebookCell : Type := mkCell {
  cell_type : CellType;
  source : list string
}.

(** A stretch of a stored file: lines of plain text, or the JSON of a
    notebook, given by its cells. *)
Inductive Part : Type :=
  | Prose (lines : list string)
  | NotebookJSON (cells : list NotebookCell).

Record SourceFile : Type := mkFile {
  path : string;
  parts : list Part
}.

Definition dq : string := String (ascii_of_nat 34) EmptyString.

(** *** personal_projects/31.ai-youtube-analysis/prompts/summarize.txt *)

(** Lines 1 to 50. *)
Definition summarize_prompts : list string :=
  [ "### Purpose";
    "you MUST Summarize a YouTube video to capture the main topics and themes, especially related to AI and LLMs. The purpose of this summary is to allow for topic categorization based on a predefined list of topics, so make sure you include all relevant information around any frameworks, tools, or technologies discussed.";
    EmptyString;
    "### Instructions";
    "1. Read the provided title, description, and transcript of a YouTube video. Note that the transcript may not be available.";
    "2. Determine if the video is about AI or Large Language Models (LLMs).";
    "3. If the video is relevant, generate a concise summary focusing on key points and topics discussed.";
    "4. The summary should be detailed enough to allow for topic categorization based on a predefined list of topics.";
    "5. Make note if the person is sharing AI news, demonstrating a tool or technology, providing advice, discussing a framework, or discussing a company.";
    "6. Write the comprehensive summary in clear, professional language.";
    "7. Write it in 400 words or less.";
    EmptyString;
    "**Note**: If all provided information is insufficient to generate a summary, respond with " +:+ dq +:+ "No summary available." +:+ dq;
    EmptyString;
    "Example Output:";
    "- Summary: In this video, the presenter delves into the advancements of multimodal models in AI, highlighting how combining text and images can enhance machine understanding. They discuss the implications of these models on image classification and generation, and provide examples of practical applications. The video also touches on ethical considerations and the future potential of multimodal AI systems. ...";
    EmptyString;
    "## Video Title";
    "`{title}`";
    EmptyString;
    "## Video Description";
    "`{description}`";
    EmptyString;
    "## Transcript";
    "`{transcript}`";
    EmptyString;
    "### Purpose";
    "Categorize a YouTube video summary into relevant AI and LLM topics based on a predefined list, adding new topics if necessary.";
    EmptyString;
    "### Instructions";
    "1. Read the provided summary of a YouTube video.";
    "2. Identify all relevant topics discussed in the summary using the predefined list below.";
    "3. Ensure the topics are specific and align with the subjects covered in the video.";
    "5. Try your hardest to stay within the predefined topics list. Don't add additional topics that aren't already listed below unless you really need to.";
    "6. Return a list of topics that accurately reflect the content of the summary.";
    EmptyString;
    "### Predefined Topics";
    "- `{predefined_topics}`";
    EmptyString;
    "### Example Output";
    "  - Multimodal models";
    "  - Image classification and generation";
    "  - AI Ethics ";
    EmptyString;
    "note: `AI Ethics` is a new topic added.";
    EmptyString;
    "---";
    EmptyString;
    "### Summary:";
    "`{summary}`" ].

Definition reddit_cell_0 : NotebookCell :=
  {| cell_type := markdown;
     source :=
       [ "## 1. Scraper";
         EmptyString;
         "The purpose of this notebook is to build a webscraper for r/LocalLlama using beautiful soup" ] |}.

Definition reddit_cell_1 : NotebookCell :=
  {| cell_type := code;
     source :=
       [ "import os";
         "import datetime";
         "from time import sleep";
         "from datetime import datetime, timedelta";
         EmptyString;
         "import praw";
         "import pandas as pd";
         "from selenium import webdriver";
         "from bs4 import BeautifulSoup";
         "from dotenv import load_dotenv, find_dotenv" ] |}.

Definition reddit_cell_2 : NotebookCell :=
  {| cell_type := markdown;
     source :=
       [ "## Just using BeautiflSoup";
         EmptyString;
         "NOTE: because of the elements being dynamically named by reddit, it's extremely difficult to have consistent extraction of html elements." ] |}.

Definition reddit_cell_3 : NotebookCell :=
  {| cell_type := code;
     source :=
       [ "import requests";
         "from bs4 import BeautifulSoup";
         EmptyString;
         "# Define the URL of the subreddit";
         "url = 'https://www.reddit.com/r/LocalLLaMA/hot/'";
         EmptyString;
         "# Add headers to mimic a real browser visit. Reddit checks for User-Agent.";
         "headers = {";
         "    'User-Agent': 'Mozilla/5.0 (Windows NT 10.0; Win64; x64) AppleWebKit/537.36 (KHTML, like Gecko) Chrome/58.0.3029.110 Safari/537.3'}";
         EmptyString;
         "response = requests.get(url, headers=headers)";
         EmptyString;
         "# Check if the request was successful";
         "if response.status_code == 200:";
         "    soup = BeautifulSoup(response.text, 'html.parser')";
         "    now = datetime.now()";
         "    posts_details = {}";
         EmptyString;
         "    # Loop through each post article";
         "    for article in soup.find_all('article'):";
         "        # Extract title";
         "        title_tag = article.find('a', {'slot': 'title'})";
         "        if title_tag:";
         "            title = title_tag.text.strip()";
         "            link = title_tag['href']";
         EmptyString;
         "            content = article.find('div', {'data-post-click-location': 'text-body'})";
         "            content_text = content.text.strip() if content else " +:+ dq +:+ "No content" +:+ dq;
         "            ";
         "            # Store details in dictionary";
         "            posts_details[title] = {'link': link, 'content': content_text.rstrip().replace(" +:+ dq +:+ "\n" +:+ dq +:+ ", " +:+ dq +:+ dq +:+ ")}";
         EmptyString;
         "    # Print the details of posts from the last day";
         "    for title, details in posts_details.items():";
         "        print(f" +:+ dq +:+ "Title: {title}\nLink: {details['link']}\nContent: {details['content']}\n" +:+ dq +:+ ")";
         "else:";
         "    print(f" +:+ dq +:+ "Failed to retrieve the webpage: Status code {response.status_code}" +:+ dq +:+ ")" ] |}.

Definition reddit_cell_4 : NotebookCell :=
  {| cell_type := markdown;
     source :=
       [ "## Just using BeautiflSoup and Selenium";
         EmptyString;
         "NOTE: this got me blocked because it came across as bot activity" ] |}.

Definition reddit_cell_5 : NotebookCell :=
  {| cell_type := code;
     source :=
       [ EmptyString;
         "# Set up the Selenium driver (example with Chrome)";
         "options = webdriver.ChromeOptions()";
         "options.add_argument('--headless')  # Run in the background";
         "driver = webdriver.Chrome(options=options)";
         EmptyString;
         "# URL of the subreddit's new posts";
         "url = 'https://www.reddit.com/r/LocalLLaMA/hot/'";
         EmptyString;
         "driver.get(url)";
         "sleep(2)  # Wait for the initial page to load";
         EmptyString;
         "# Scroll down to ensure all posts from the last day are loaded";
         "# Adjust the range or conditions based on your needs";
         "for _ in range(10):  # Example: scroll 10 times";
         "    driver.execute_script(" +:+ dq +:+ "window.scrollTo(0, document.body.scrollHeight);" +:+ dq +:+ ")";
         "    sleep(2)  # Wait for more posts to load";
         EmptyString;
         "def parse_datetime(timestamp):";
         "    return datetime.strptime(timestamp, " +:+ dq +:+ "%Y-%m-%dT%H:%M:%S.%f+0000" +:+ dq +:+ ")";
         EmptyString;
         "# Now that we have the page loaded, let's use BeautifulSoup to parse the HTML";
         "soup = BeautifulSoup(driver.page_source, 'html.parser')";
         EmptyString;
         "print(soup.title.text)";
         "posts = soup.find_all('article')";
         "print(f" +:+ dq +:+ "Found {len(posts)} posts on the page." +:+ dq +:+ ")";
         EmptyString;
         "# If posts are found, attempt to print the first post's HTML";
         "if posts:";
         "    print(posts[0].prettify())";
         EmptyString;
         "# Close the Selenium browser";
         "driver.quit()";
         "now = datetime.now()";
         EmptyString;
         "# Dictionary to hold post details";
         "posts_details = {}";
         EmptyString;
         "# Loop through each post article";
         "for article in soup.find_all('article'):";
         "    # Extract title";
         "    title_tag = article.find('a', {'slot': 'title'})";
         "    if title_tag:";
         "        title = title_tag.text.strip()";
         "        link = title_tag['href']";
         "        ";
         "        # Extract timestamp";
         "        timestamp_tag = article.find('faceplate-timeago')";
         "        if timestamp_tag:";
         "            post_datetime = parse_datetime(timestamp_tag['ts'])";
         "            # Check if the post is from the last day";
         "            if now - post_datetime <= timedelta(days=1):";
         "                # Extract content if available";
         "                content = article.find('div', {'data-post-click-location': 'text-body'})";
         "                content_text = content.text.strip() if content else " +:+ dq +:+ "No content" +:+ dq;
         "                ";
         "                # Store details in dictionary";
         "                posts_details[title] = {'link': link, 'content': content_text}";
         EmptyString;
         "# Print the details of posts from the last day";
         "for title, details in posts_details.items():";
         "    print(f" +:+ dq +:+ "Title: {title}\nLink: {details['link']}\nContent: {details['content']}\n" +:+ dq +:+ ")" ] |}.

Definition reddit_cell_6 : NotebookCell :=
  {| cell_type := code;
     source :=
       [ "posts_details" ] |}.

Definition reddit_cell_7 : NotebookCell :=
  {| cell_type := markdown;
     source :=
       [ "### PRAW For Reddit";
         EmptyString;
         "1. Go to https://www.reddit.com/prefs/apps";
         "2. Click " +:+ dq +:+ "create app" +:+ dq +:+ " or " +:+ dq +:+ "create another app" +:+ dq;
         "3. Fill out the form:";
         "    - name: Give your app a name.";
         "    - application type: Select " +:+ dq +:+ "script" +:+ dq +:+ ".";
         "    - redirect uri: Use http://localhost:8080 or a similar placeholder.";
         "4. After creation, note down the `client_id` (just under the app name) and `client_secret`." ] |}.

Definition reddit_cell_8 : NotebookCell :=
  {| cell_type := markdown;
     source :=
       [] |}.

Definition reddit_cell_9 : NotebookCell :=
  {| cell_type := code;
     source :=
       [ "load_dotenv(" +:+ dq +:+ "../../../.env" +:+ dq +:+ ")" ] |}.

Definition reddit_cell_10 : NotebookCell :=
  {| cell_type := code;
     source :=
       [ "reddit = praw.Reddit(";
         "    user_agent=f" +:+ dq +:+ "Comment Extraction (by u/{os.environ.get('REDDIT_USERNAME')})" +:+ dq +:+ ",";
         "    client_id= os.environ.get(" +:+ dq +:+ "REDDIT_APP" +:+ dq +:+ "),";
         "    client_secret= os.environ.get(" +:+ dq +:+ "REDDIT_SECRET" +:+ dq +:+ ")";
         ")" ] |}.

Definition reddit_cell_11 : NotebookCell :=
  {| cell_type := code;
     source :=
       [ "subreddit = reddit.subreddit(" +:+ dq +:+ "LocalLLaMA" +:+ dq +:+ ")";
         "new_posts = subreddit.new(limit=1000)  # Adjust limit as needed";
         EmptyString;
         "posts_data = {}";
         EmptyString;
         "def get_comments_with_replies(comment, depth=0):";
         "    " +:+ dq +:+ dq +:+ dq +:+ "Recursively get comments and their nested replies." +:+ dq +:+ dq +:+ dq;
         "    comments_list = []";
         "    spacer = " +:+ dq +:+ "  " +:+ dq +:+ " * depth  # Indentation for nested comments";
         "    comments_list.append(f" +:+ dq +:+ "{spacer}- {comment.body}" +:+ dq +:+ ")";
         "    if not hasattr(comment, " +:+ dq +:+ "replies" +:+ dq +:+ "):";
         "        comment.replies = []";
         "    for reply in comment.replies:";
         "        if isinstance(reply, praw.models.MoreComments):";
         "            continue";
         "        comments_list.extend(get_comments_with_replies(reply, depth + 1))";
         "    return comments_list";
         EmptyString;
         EmptyString;
         "for post in new_posts:";
         "    post.comments.replace_more(limit=0)  # Load all comments; limit=0 to fully expand the comment tree";
         "    comments = []";
         "    for top_level_comment in post.comments:";
         "        comments.extend(get_comments_with_replies(top_level_comment))";
         EmptyString;
         "    posts_data[post.id] = {";
         "        " +:+ dq +:+ "title" +:+ dq +:+ ": post.title,";
         "        " +:+ dq +:+ "content" +:+ dq +:+ ": post.selftext,";
         "        " +:+ dq +:+ "comments" +:+ dq +:+ ": comments,";
         "        " +:+ dq +:+ "link" +:+ dq +:+ ": post.shortlink,";
         "        " +:+ dq +:+ "flair" +:+ dq +:+ ": post.flair, ";
         "        " +:+ dq +:+ "media" +:+ dq +:+ ": post.media,";
         "    }" ] |}.

Definition reddit_cell_12 : NotebookCell :=
  {| cell_type := code;
     source :=
       [ "with open(f" +:+ dq +:+ "./_output/new/localllama-new-{datetime.now().strftime('%d-%m-%Y')}.txt" +:+ dq +:+ ", " +:+ dq +:+ "w" +:+ dq +:+ ") as file:";
         "    # Print the scraped data";
         "    for post_id, post_info in posts_data.items():";
         "        file.writelines(f" +:+ dq +:+ "Post ID: {post_id}\n" +:+ dq +:+ ")";
         "        file.writelines(f" +:+ dq +:+ "Title: {post_info['title']}\n" +:+ dq +:+ ")";
         "        file.writelines(f" +:+ dq +:+ "Link: {post_info['link']}\n" +:+ dq +:+ ")";
         "        file.writelines(f" +:+ dq +:+ "Content: {post_info['content']}\n" +:+ dq +:+ ")";
         "        if len(post_info['comments']) > 0:";
         "            file.writelines(" +:+ dq +:+ "Comments:\n" +:+ dq +:+ ")";
         "            for comment in post_info['comments']:";
         "                file.writelines(comment + " +:+ dq +:+ "\n" +:+ dq +:+ ")  # Comments are already formatted with spacers for nesting";
         "        file.writelines(" +:+ dq +:+ "\n---\n" +:+ dq +:+ ")" ] |}.

Definition reddit_notebook : list NotebookCell :=
  [reddit_cell_0; reddit_cell_1; reddit_cell_2; reddit_cell_3; reddit_cell_4; reddit_cell_5; reddit_cell_6; reddit_cell_7; reddit_cell_8; reddit_cell_9; reddit_cell_10; reddit_cell_11; reddit_cell_12].

(** Lines 1 to 50, then the notebook from line 51 to the end. *)
Definition summarize_txt : SourceFile :=
  {| path := "personal_projects/31.ai-youtube-analysis/prompts/summarize.txt";
     parts := [Prose summarize_prompts; NotebookJSON reddit_notebook] |}.

(** *** What a file holds *)

Definition is_name_char (a : ascii) : bool :=
  let n := nat_of_ascii a in
  ((48 <=? n) && (n <=? 57) || (65 <=? n) && (n <=? 90)
   || (97 <=? n) && (n <=? 122) || (n =? 95))%nat.

(** The substitution placeholders of a line: the names written
    between a brace and the next closing brace.  [open] is the name
    read so far, in reverse, once a brace is open. *)
Fixpoint placeholders_from (open : option (list ascii)) (s : string)
  : list string :=
  match s with
  | EmptyString => []
  | String a s' =>
      if Ascii.eqb a "{" then placeholders_from (Some []) s'
      else match open with
           | Some (c :: cs) =>
               if Ascii.eqb a "}"
               then string_of_list_ascii (reverse (c :: cs))
                      :: placeholders_from None s'
               else if is_name_char a
                    then placeholders_from (Some (a :: c :: cs)) s'
                    else placeholders_from None s'
           | Some [] =>
               if is_name_char a then placeholders_from (Some [a]) s'
               else placeholders_from None s'
           | None => placeholders_from None s'
           end
  end.

Definition placeholders (l : string) : list string :=
  placeholders_from None l.

Definition prose_lines (f : SourceFile) : list string :=
  p ← parts f; match p with Prose ls => ls | NotebookJSON _ => [] end.

(** The cells that a notebook kernel would execute. *)
Definition code_cells (f : SourceFile) : list NotebookCell :=
  p ← parts f;
  match p with
  | Prose _ => []
  | NotebookJSON cs =>
      List.filter (λ c, match cell_type c with code => true | _ => false end)
                  cs
  end.

Fixpoint contains (needle s : string) : bool :=
  String.prefix needle s ||
  match s with
  | EmptyString => false
  | String _ s' => contains needle s'
  end.

Definition cell_calls (needle : string) (c : NotebookCell) : bool :=
  existsb (contains needle) (source c).

(** A prompt template: plain text with placeholders to fill in. *)
Definition holds_prompt_template (f : SourceFile) : bool :=
  existsb (λ l, negb (bool_decide (placeholders l = []))) (prose_lines f).

(** An executable scraping script: a code cell that fetches a page
    and searches the parsed markup. *)
Definition holds_scraping_script (f : SourceFile) : bool :=
  existsb (λ c, cell_calls "requests.get(" c && cell_calls "soup.find_all(" c)
          (code_cells f).

End Repository.

(** ** Concrete pages, responses and kernels *)
Module Samples.
Import BS4 Scraper.

(** A page with one post whose text has two lines. *)
Definition page_markup : str :=
  lit "<article><a slot='title' href='/r/LocalLLaMA/comments/1'>New model</a><div data-post-click-location='text-body'>line one"
  ++ [newline] ++ lit "line two</div></article>".

Definition page_title_link : Node :=
  Tag (lit "a")
      {[ lit "slot" := lit "title";
         lit "href" := lit "/r/LocalLLaMA/comments/1" ]}
      [NavigableString (lit "New model")].

Definition page_text_body : Node :=
  Tag (lit "div")
      {[ lit "data-post-click-location" := lit "text-body" ]}
      [NavigableString (lit "line one" ++ [newline] ++ lit "line two")].

Definition page_article : Node :=
  Tag (lit "article") ∅ [page_title_link; page_text_body].

(** A parser that knows this one page. *)
Definition page_parser (markup : str) : list Node :=
  if decide (markup = page_markup) then [page_article] else [].

Definition page_response : Response :=
  {| status_code := 200; text := page_markup |}.

Definition busy_response : Response :=
  {| status_code := 429; text := lit "Too Many Requests" |}.

(** A world that is a clock: every fetch and every reading of the
    time takes a tick, and every fetch is answered with [r]. *)
Definition answer (r : Response)
  : str → gmap str str → Z → Outcome Response * Z :=
  λ _ _ w, (Returns r, w + 1).

Definition tick : Z → Z * Z := λ w, (w, w + 1).

(** A kernel that has run nothing. *)
Definition fresh_kernel : Kernel Z := mkKernel 0 ∅ [].

(** A kernel in which an earlier run left one record. *)
Definition used_kernel : Kernel Z :=
  mkKernel 100
    {[ "posts_details" :=
         VPosts [(lit "Old post", details_of (lit "/old") (lit "old text"))] ]}
    [].

(** Two posts under one title, and a parser that returns them. *)
Definition twin_article (href text : string) : Node :=
  Tag (lit "article") ∅
      [Tag (lit "a") {[ lit "slot" := lit "title"; lit "href" := lit href ]}
           [NavigableString (lit " Same title ")];
       Tag (lit "div") {[ lit "data-post-click-location" := lit "text-body" ]}
           [NavigableString (lit text)]].

Definition twin_parser (markup : str) : list Node :=
  [twin_article "/first" "first text"; twin_article "/second" "second text"].

(** A post whose title link has no [href]. *)
Definition bare_parser (markup : str) : list Node :=
  [Tag (lit "article") ∅
       [Tag (lit "a") {[ lit "slot" := lit "title" ]}
            [NavigableString (lit "No link")]]].

(** A comment without replies. *)
Definition lone_comment : Praw.Item := Praw.Comment (lit "x") None.

(** A thread: a comment with a reply, a placeholder hiding a comment,
    and a reply that has a reply of its own. *)
Definition thread : Praw.Item :=
  Praw.Comment (lit "top")
    (Some [Praw.Comment (lit "first reply") None;
           Praw.MoreComments [Praw.Comment (lit "not loaded") None];
           Praw.Comment (lit "second reply")
             (Some [Praw.Comment (lit "nested") (Some [])])]).

End Samples.

(** ** More about the scraping cell *)
Module ScraperOrder.
Import BS4 Scraper.

(** The keys of a dictionary filled by assigning to [keys] in turn:
    each key where it was first seen. *)
Definition first_seen (keys : list str) : list str :=
  foldl (λ seen k, if decide (k ∈ seen) then seen else seen ++ [k]) [] keys.

(** The stripped titles of the articles that have a title link, in
    document order. *)
Definition titles (articles : list Node) : list str :=
  a ← articles;
  match find a (lit "a") slot_title with
  | Some title_tag => [strip (BS4.text title_tag)]
  | None => []
  end.

(** What [print] receives for one stored record. *)
Definition printed_block (title link content : str) : str :=
  lit "Title: " ++ title ++ [newline] ++
  lit "Link: " ++ link ++ [newline] ++
  lit "Content: " ++ content ++ [newline].

(** A stored entry is tidy: its key has no white space at either end
    and its record has the two fields, the content on one line. *)
Definition tidy (e : str * gmap str str) : Prop :=
  strip e.1 = e.1
  ∧ ∃ link content,
      e.2 = {[ lit "link" := link; lit "content" := content ]}
      ∧ newline ∉ content.

End ScraperOrder.

(** ** The PRAW cell: the loop over the posts, and the cell that writes
    the file *)
Module PrawPosts.
Import Praw.

(** A comment tree with every [MoreComments] taken out, at every
    level; the result of [strip_more] is a list because a placeholder
    leaves nothing. *)
Fixpoint strip_more (c : Item) : list Item :=
  match c with
  | MoreComments _ => []
  | Comment body (Some replies) =>
      [Comment body (Some (r ← replies; strip_more r))]
  | Comment body None => [Comment body None]
  end.

(** No [MoreComments] among the items themselves. *)
Definition all_comments (forest : list Item) : Prop :=
  Forall (λ c, match c with Comment _ _ => True | MoreComments _ => False end)
         forest.

(** No [MoreComments] anywhere in a tree. *)
Fixpoint fully_loaded (c : Item) : bool :=
  match c with
  | MoreComments _ => false
  | Comment _ (Some replies) => forallb fully_loaded replies
  | Comment _ None => true
  end.

(** The number of comments in a tree, those behind placeholders not
    counted. *)
Fixpoint count_comments (c : Item) : nat :=
  match c with
  | MoreComments _ => 0
  | Comment _ (Some replies) => S (sum_list (count_comments <$> replies))
  | Comment _ None => 1
  end.

(** The two spaces that one more level of depth puts in front. *)
Definition indent (line : str) : str := lit "  " ++ line.

Section Posts.

(** What [post.flair] and [post.media] hold is carried along, never
    looked at. *)
Variables Flair Media : Type.

(** A submission, as far as the cell reads it. *)
Record Submission : Type := mkSubmission {
  id : str;
  title : str;
  selftext : str;
  shortlink : str;
  flair : Flair;
  media : Media;
  comments : list Item
}.

(** The dictionary stored for a post: its six keys, each with the type
    of value the cell puts there. *)
Record PostInfo : Type := mkPostInfo {
  info_title : str;
  info_content : str;
  info_comments : list str;
  info_link : str;
  info_flair : Flair;
  info_media : Media
}.

(** [post.comments.replace_more(limit=0)] is PRAW's: what it leaves of
    the forest is not fixed here. *)
Variable replace_more : list Item → list Item.

(** [for top_level_comment in post.comments:
        comments.extend(get_comments_with_replies(top_level_comment))] *)
Fixpoint extend_all (forest : list Item) (comments : list str)
  : AttributeError_or (list str) :=
  match forest with
  | [] => Ok comments
  | top_level_comment :: rest =>
      match get_comments_with_replies top_level_comment 0 with
      | Ok more => extend_all rest (comments ++ more)
      | AttributeError a => AttributeError a
      end
  end.

(** The body of [for post in new_posts], on [posts_data]. *)
Definition post_body (post : Submission) (posts_data : PyDict.t PostInfo)
  : AttributeError_or () * PyDict.t PostInfo :=
  match extend_all (replace_more (comments post)) [] with
  | Ok comments =>
      (Ok (),
       PyDict.set posts_data (id post)
         {| info_title := title post;
            info_content := selftext post;
            info_comments := comments;
            info_link := shortlink post;
            info_flair := flair post;
            info_media := media post |})
  | AttributeError a => (AttributeError a, posts_data)
  end.

(** [posts_data = {}] and the loop, for the posts that the listing
    yields; of the names the loop binds, [posts_data] is followed. *)
Fixpoint posts_loop (new_posts : list Submission)
    (posts_data : PyDict.t PostInfo)
  : AttributeError_or () * PyDict.t PostInfo :=
  match new_posts with
  | [] => (Ok (), posts_data)
  | post :: rest =>
      match post_body post posts_data with
      | (Ok _, posts_data') => posts_loop rest posts_data'
      | (AttributeError a, posts_data') => (AttributeError a, posts_data')
      end
  end.

Definition praw_cell (new_posts : list Submission)
  : AttributeError_or () * PyDict.t PostInfo :=
  posts_loop new_posts [].

(** The strings that the last cell hands to [file.writelines] for one
    post, in order. *)
Definition post_writes (post_id : str) (post_info : PostInfo) : list str :=
  [lit "Post ID: " ++ post_id ++ [newline];
   lit "Title: " ++ info_title post_info ++ [newline];
   lit "Link: " ++ info_link post_info ++ [newline];
   lit "Content: " ++ info_content post_info ++ [newline]]
  ++ (if (0 <? length (info_comments post_info))%nat
      then (lit "Comments:" ++ [newline])
             :: ((λ comment, comment ++ [newline]) <$> info_comments post_info)
      else [])
  ++ [[newline] ++ lit "---" ++ [newline]].

(** The text of the file once the cell has run: [writelines] on a
    string writes its characters.  The name of the file and its
    opening are left out. *)
Definition written (posts_data : PyDict.t PostInfo) : str :=
  mjoin (e ← posts_data; post_writes e.1 e.2).

(** What the file shows of a post: everything but flair and media. *)
Definition shown (e : str * PostInfo)
  : str * str * str * str * list str :=
  (e.1, info_title e.2, info_link e.2, info_content e.2, info_comments e.2).

(** The lines of the comments as they are written, each with its
    newline. *)
Definition comment_lines (cs : list str) : str :=
  mjoin ((λ comment, comment ++ [newline]) <$> cs).

(** A string without a newline. *)
Definition one_line (s : str) : Prop := newline ∉ s.

(** An entry whose fields are each on one line and whose comment
    lines are not empty. *)
Definition line_safe (e : str * PostInfo) : Prop :=
  one_line e.1 ∧ one_line (info_title e.2) ∧ one_line (info_link e.2)
  ∧ one_line (info_content e.2)
  ∧ Forall (λ c, one_line c ∧ c ≠ []) (info_comments e.2).

(** The entry that the loop stores for a post whose forest
    [replace_more] has turned into [forest]. *)
Definition info_of (post : Submission) : PostInfo :=
  {| info_title := title post;
     info_content := selftext post;
     info_comments := c ← replace_more (comments post); lines_from 0 c;
     info_link := shortlink post;
     info_flair := flair post;
     info_media := media post |}.

(** A post whose id, title, selftext and shortlink are each on one
    line, and so are the bodies of the comments its forest holds once
    [replace_more] has run. *)
Definition plain_post (post : Submission) : Prop :=
  one_line (id post) ∧ one_line (title post) ∧ one_line (selftext post)
  ∧ one_line (shortlink post)
  ∧ Forall (λ c, Forall (λ lb : nat * str, one_line lb.2) (reached 0 c))
           (replace_more (comments post)).

End Posts.

Arguments id {Flair Media}.
Arguments title {Flair Media}.
Arguments selftext {Flair Media}.
Arguments shortlink {Flair Media}.
Arguments flair {Flair Media}.
Arguments media {Flair Media}.
Arguments comments {Flair Media}.
Arguments mkSubmission {Flair Media}.
Arguments mkPostInfo {Flair Media}.
Arguments info_title {Flair Media}.
Arguments info_content {Flair Media}.
Arguments info_comments {Flair Media}.
Arguments info_link {Flair Media}.
Arguments info_flair {Flair Media}.
Arguments info_media {Flair Media}.
Arguments post_writes {Flair Media}.
Arguments written {Flair Media}.
Arguments shown {Flair Media}.
Arguments line_safe {Flair Media}.

End PrawPosts.

(** ** The cell under "Just using BeautiflSoup and Selenium" *)
Module Selenium.
Import BS4.

(** What this cell can raise: what the cells above can, and
    [AttributeError] when [soup.title] is [None]. *)
Inductive Raised : Type :=
  | Builtin (e : PyExn)
  | AttributeError (msg : string).

Inductive Result (A : Type) : Type :=
  | Done (a : A)
  | Fails (r : Raised).
Arguments Done {A} a.
Arguments Fails {A} r.

(** State passing with these exceptions; a raise keeps the state. *)
Definition Run (S A : Type) : Type := S → Result A * S.

#[global] Instance Run_ret {S} : MRet (Run S) := λ A a s, (Done a, s).
#[global] Instance Run_bind {S} : MBind (Run S) :=
  λ A B k m s,
    match m s with
    | (Done a, s') => k a s'
    | (Fails r, s') => (Fails r, s')
    end.

Definition of_outcome {A} (o : Outcome A) : Result A :=
  match o with
  | Returns a => Done a
  | Raises e => Fails (Builtin e)
  end.

(** The objects bound to names by this cell. *)
Inductive Value : Type :=
  | VNone
  | VInt (n : Z)
  | VStr (s : str)
  | VOptions (arguments : list str)
  | VDriver
  | VFunction
  | VSoup (roots : list Node)
  | VTag (n : Node)
  | VTags (ns : list Node)
  | VDatetime (t : Z)
  | VDetails (d : gmap str str)
  | VPosts (d : PyDict.t (gmap str str)).

(** What a run does to the outside, in order. *)
Inductive Event : Type :=
  | Start (arguments : list str)
  | Navigate (url : str)
  | Sleep (seconds : Z)
  | Script (js : str)
  | ReadSource
  | Quit
  | Parse (markup : str)
  | Print (line : str).

Definition scroll_js : str :=
  lit "window.scrollTo(0, document.body.scrollHeight);".

(** [timedelta(days=1)], in microseconds. *)
Definition one_day : Z := 86400000000.

(** [{'link': link, 'content': content_text}] *)
Definition details_of (link content_text : str) : gmap str str :=
  {[ lit "link" := link; lit "content" := content_text ]}.

Definition no_title : Raised :=
  AttributeError "'NoneType' object has no attribute 'text'".

Section Cell.

(** The browser, the clock, the HTML parser, [prettify] and
    [strptime] are not the notebook's.  A [datetime] is a number of
    microseconds; [strptime] stands for
    [datetime.strptime(_, "%Y-%m-%dT%H:%M:%S.%f+0000")]. *)
Variable World : Type.
Variable chrome : list str → World → Outcome () * World.
Variable driver_get : str → World → Outcome () * World.
Variable time_sleep : Z → World → World.
Variable execute_script : str → World → Outcome () * World.
Variable page_source : World → Outcome str * World.
Variable driver_quit : World → Outcome () * World.
Variable datetime_now : World → Z * World.
Variable html_parser : str → list Node.
Variable prettify : Node → str.
Variable strptime : str → Outcome Z.

Record Kernel : Type := mkKernel {
  world : World;
  globals : gmap string Value;
  events : list Event
}.

Definition Cell (A : Type) : Type := Run Kernel A.

Definition fail {A} (r : Raised) : Cell A := λ k, (Fails r, k).

Definition lift {A} (o : Outcome A) : Cell A := λ k, (of_outcome o, k).

(** [name = v] *)
Definition assign (name : string) (v : Value) : Cell () :=
  λ k, (Done (),
        {| world := world k;
           globals := <[name := v]> (globals k);
           events := events k |}).

Definition emit (e : Event) : Cell () :=
  λ k, (Done (),
        {| world := world k;
           globals := globals k;
           events := events k ++ [e] |}).

(** A call into the outside: it is recorded, then it returns or
    raises. *)
Definition call {A} (e : Event) (f : World → Outcome A * World) : Cell A :=
  λ k, let '(o, w) := f (world k) in
       (of_outcome o,
        {| world := w; globals := globals k; events := events k ++ [e] |}).

(** [sleep(seconds)] *)
Definition sleep (seconds : Z) : Cell () :=
  λ k, (Done (),
        {| world := time_sleep seconds (world k);
           globals := globals k;
           events := events k ++ [Sleep seconds] |}).

(** [datetime.now()] *)
Definition now : Cell Z :=
  λ k, let '(t, w) := datetime_now (world k) in
       (Done t, {| world := w; globals := globals k; events := events k |}).

(** [BeautifulSoup(markup, 'html.parser')] *)
Definition BeautifulSoup (markup : str) : Cell (list Node) :=
  emit (Parse markup);; mret (html_parser markup).

Definition load_posts : Cell (PyDict.t (gmap str str)) :=
  λ k, match globals k !! "posts_details" with
       | Some (VPosts d) => (Done d, k)
       | Some _ => (Fails (Builtin (TypeError "not a dict")), k)
       | None => (Fails (Builtin (NameError "posts_details")), k)
       end.

Fixpoint for_each {A} (xs : list A) (body : A → Cell ()) : Cell () :=
  match xs with
  | [] => mret ()
  | x :: xs' => body x;; for_each xs' body
  end.

(** The body of [for _ in range(10)]. *)
Definition scroll (i : nat) : Cell () :=
  assign "_" (VInt (Z.of_nat i));;
  call (Script scroll_js) (execute_script scroll_js);;
  sleep 2.

(** The body of [for article in soup.find_all('article')], with the
    value of [now]. *)
Definition article_body (now : Z) (article : Node) : Cell () :=
  assign "article" (VTag article);;
  let title_tag := find article (lit "a") Scraper.slot_title in
  assign "title_tag" (from_option VTag VNone title_tag);;
  match title_tag with
  | Some title_tag =>
      let title := strip (BS4.text title_tag) in
      assign "title" (VStr title);;
      link ← lift (getitem title_tag (lit "href"));
      assign "link" (VStr link);;
      let timestamp_tag := find article (lit "faceplate-timeago") None in
      assign "timestamp_tag" (from_option VTag VNone timestamp_tag);;
      match timestamp_tag with
      | Some timestamp_tag =>
          ts ← lift (getitem timestamp_tag (lit "ts"));
          post_datetime ← lift (strptime ts);
          assign "post_datetime" (VDatetime post_datetime);;
          if now - post_datetime <=? one_day then
            let content := find article (lit "div") Scraper.text_body in
            assign "content" (from_option VTag VNone content);;
            let content_text :=
              match content with
              | Some content => strip (BS4.text content)
              | None => lit "No content"
              end in
            assign "content_text" (VStr content_text);;
            posts_details ← load_posts;
            assign "posts_details"
              (VPosts (PyDict.set posts_details title
                         (details_of link content_text)))
          else mret ()
      | None => mret ()
      end
  | None => mret ()
  end.

(** [details[key]] *)
Definition field (details : gmap str str) (key : str) : Cell str :=
  match details !! key with
  | Some v => mret v
  | None => fail (Builtin (KeyError key))
  end.

(** The body of [for title, details in posts_details.items()]. *)
Definition print_post (item : str * gmap str str) : Cell () :=
  let '(title, details) := item in
  assign "title" (VStr title);;
  assign "details" (VDetails details);;
  link ← field details (lit "link");
  content ← field details (lit "content");
  emit (Print (lit "Title: " ++ title ++ [newline] ++
               lit "Link: " ++ link ++ [newline] ++
               lit "Content: " ++ content ++ [newline])).

(** The cell up to and with [driver.quit()]: the browser session and
    the three reports.  [options] is bound once, as it is after
    [add_argument('--headless')]. *)
Definition browse : Cell (list Node) :=
  assign "options" (VOptions [lit "--headless"]);;
  call (Start [lit "--headless"]) (chrome [lit "--headless"]);;
  assign "driver" VDriver;;
  assign "url" (VStr Scraper.url_hot);;
  call (Navigate Scraper.url_hot) (driver_get Scraper.url_hot);;
  sleep 2;;
  for_each (seq 0 10) scroll;;
  assign "parse_datetime" VFunction;;
  markup ← call ReadSource page_source;
  soup ← BeautifulSoup markup;
  assign "soup" (VSoup soup);;
  title ← match head (find_all_in soup (lit "title") None) with
          | Some title => mret (BS4.text title)
          | None => fail no_title
          end;
  emit (Print title);;
  let posts := find_all_in soup (lit "article") None in
  assign "posts" (VTags posts);;
  emit (Print (lit "Found " ++ of_int (Z.of_nat (length posts)) ++
               lit " posts on the page."));;
  match posts with
  | first :: _ => emit (Print (prettify first))
  | [] => mret ()
  end;;
  call Quit driver_quit;;
  mret soup.

(** The whole cell. *)
Definition selenium_cell : Cell () :=
  soup ← browse;
  t ← now;
  assign "now" (VDatetime t);;
  assign "posts_details" (VPosts []);;
  for_each (find_all_in soup (lit "article") None) (article_body t);;
  posts_details ← load_posts;
  for_each posts_details print_post.

Definition posts_of (k : Kernel) : PyDict.t (gmap str str) :=
  match globals k !! "posts_details" with
  | Some (VPosts d) => d
  | _ => []
  end.

(** *** The loop over the articles, without the kernel *)

Definition collect_one (now : Z) (article : Node)
    (d : PyDict.t (gmap str str)) : Result () * PyDict.t (gmap str str) :=
  match find article (lit "a") Scraper.slot_title with
  | Some title_tag =>
      match getitem title_tag (lit "href") with
      | Returns link =>
          match find article (lit "faceplate-timeago") None with
          | Some timestamp_tag =>
              match getitem timestamp_tag (lit "ts") with
              | Returns ts =>
                  match strptime ts with
                  | Returns post_datetime =>
                      if now - post_datetime <=? one_day then
                        (Done (),
                         PyDict.set d (strip (BS4.text title_tag))
                           (details_of link (Scraper.content_stripped article)))
                      else (Done (), d)
                  | Raises e => (Fails (Builtin e), d)
                  end
              | Raises e => (Fails (Builtin e), d)
              end
          | None => (Done (), d)
          end
      | Raises e => (Fails (Builtin e), d)
      end
  | None => (Done (), d)
  end.

Fixpoint collect (now : Z) (articles : list Node)
    (d : PyDict.t (gmap str str)) : Result () * PyDict.t (gmap str str) :=
  match articles with
  | [] => (Done (), d)
  | article :: rest =>
      match collect_one now article d with
      | (Done _, d') => collect now rest d'
      | (Fails r, d') => (Fails r, d')
      end
  end.

(** *** Pages on which the loop finds what it reads *)

(** The time on an article's [faceplate-timeago] tag, when the tag,
    its [ts] and a reading of it by [strptime] are all there. *)
Definition posted_at (article : Node) : option Z :=
  timestamp_tag ← find article (lit "faceplate-timeago") None;
  ts ← attr timestamp_tag (lit "ts");
  match strptime ts with Returns t => Some t | Raises _ => None end.

(** An article that the loop can read: if it has a title link, the
    link has an [href], and if it also has a [faceplate-timeago] tag,
    the tag has a [ts] that [strptime] accepts. *)
Definition readable (article : Node) : Prop :=
  ∀ title_tag,
    find article (lit "a") Scraper.slot_title = Some title_tag →
    is_Some (attr title_tag (lit "href"))
    ∧ ∀ timestamp_tag,
        find article (lit "faceplate-timeago") None = Some timestamp_tag →
        ∃ ts t, attr timestamp_tag (lit "ts") = Some ts
                ∧ strptime ts = Returns t.

(** An article with a title link has a time. *)
Definition timed (article : Node) : Prop :=
  ∀ title_tag,
    find article (lit "a") Scraper.slot_title = Some title_tag →
    is_Some (posted_at article).

(** The record of an article posted no more than a day before [now]
    (or after [now]). *)
Definition recent_record (now : Z) (article : Node)
  : option (str * gmap str str) :=
  title_tag ← find article (lit "a") Scraper.slot_title;
  link ← attr title_tag (lit "href");
  t ← posted_at article;
  if now - t <=? one_day
  then Some (strip (BS4.text title_tag),
             {[ lit "link" := link;
                lit "content" := Scraper.content_stripped article ]})
  else None.

(** The browser starts, loads, scrolls and quits without raising, and
    the page it holds has the source [markup]. *)
Definition browser_shows (markup : str) : Prop :=
  (∀ arguments w, (chrome arguments w).1 = Returns ())
  ∧ (∀ url w, (driver_get url w).1 = Returns ())
  ∧ (∀ js w, (execute_script js w).1 = Returns ())
  ∧ (∀ w, (page_source w).1 = Returns markup)
  ∧ (∀ w, (driver_quit w).1 = Returns ()).

(** What the print loop writes for one stored record. *)
Definition print_line (e : str * gmap str str) : list Event :=
  match e.2 !! lit "link", e.2 !! lit "content" with
  | Some link, Some content =>
      [Print (lit "Title: " ++ e.1 ++ [newline] ++
              lit "Link: " ++ link ++ [newline] ++
              lit "Content: " ++ content ++ [newline])]
  | _, _ => []
  end.

(** A stored record has the two fields that the print loop reads. *)
Definition printable (e : str * gmap str str) : Prop :=
  ∃ link content_text, e.2 = details_of link content_text.

(** The three reports printed before the browser is closed. *)
Definition reports (soup : list Node) (title : Node) : list Event :=
  [Print (BS4.text title);
   Print (lit "Found " ++
          of_int (Z.of_nat (length (find_all_in soup (lit "article") None))) ++
          lit " posts on the page.")]
  ++ match find_all_in soup (lit "article") None with
     | first :: _ => [Print (prettify first)]
     | [] => []
     end.

(** The kernel that a run of the cell leaves. *)
Definition after (k : Kernel) : Kernel := (selenium_cell k).2.

End Cell.

Arguments mkKernel {World}.
Arguments world {World}.
Arguments globals {World}.
Arguments events {World}.
Arguments posts_of {World}.

(** The events of a browser session that loads the page and scrolls
    ten times. *)
Definition session_start : list Event :=
  [Start [lit "--headless"]; Navigate Scraper.url_hot; Sleep 2]
  ++ (_ ← seq 0 10; [Script scroll_js; Sleep 2])
  ++ [ReadSource].

(** What the first cell makes of a record of this one. *)
Definition squeezed (details : gmap str str) : gmap str str :=
  match details !! lit "link", details !! lit "content" with
  | Some link, Some content => Scraper.details_of link content
  | _, _ => details
  end.

End Selenium.

(** ** More concrete inputs *)
Module MoreSamples.
Import BS4.

(** A network that refuses the connection. *)
Definition refuse : str → gmap str str → Z → Outcome Scraper.Response * Z :=
  λ _ _ w, (Raises (LibraryError (lit "ConnectionError")), w + 1).

(** A post whose title link has no [href], between two that have one. *)
Definition bare_article : Node :=
  Tag (lit "article") ∅
      [Tag (lit "a") {[ lit "slot" := lit "title" ]}
           [NavigableString (lit "No link")]].

Definition mixed_parser (markup : str) : list Node :=
  [Samples.page_article; bare_article;
   Samples.twin_article "/late" "late text"].

(** [replace_more(limit=0)] as PRAW describes it: every placeholder is
    removed; and a [replace_more] that leaves the forest as it is. *)
Definition drop_placeholders (forest : list Praw.Item) : list Praw.Item :=
  c ← forest; PrawPosts.strip_more c.

Definition leave_forest (forest : list Praw.Item) : list Praw.Item := forest.

(** [Samples.thread] without its placeholder. *)
Definition loaded_thread : Praw.Item :=
  Praw.Comment (lit "top")
    (Some [Praw.Comment (lit "first reply") None;
           Praw.Comment (lit "second reply")
             (Some [Praw.Comment (lit "nested") (Some [])])]).

(** Two posts; the forest of the second has a placeholder on top. *)
Definition first_post : PrawPosts.Submission () () :=
  PrawPosts.mkSubmission (lit "1abc") (lit "First") (lit "Some text")
    (lit "https://redd.it/1abc") () () [Samples.thread].

Definition second_post : PrawPosts.Submission () () :=
  PrawPosts.mkSubmission (lit "1abd") (lit "Second") [] (lit "https://redd.it/1abd")
    () () [Samples.lone_comment; Praw.MoreComments []].

(** One entry of [posts_data], for a given flair. *)
Definition entry_with_flair (flair : nat) : str * PrawPosts.PostInfo nat () :=
  (lit "1abc",
   PrawPosts.mkPostInfo (lit "First") (lit "Some text")
     [lit "- top"; lit "  - first reply"] (lit "https://redd.it/1abc")
     flair ()).

(** A browser whose calls all return, on a world that counts them. *)
Definition returns {A} (a : A) : Z → Outcome A * Z := λ w, (Returns a, w + 1).

Definition sample_chrome : list str → Z → Outcome () * Z := λ _, returns ().
Definition sample_driver_get : str → Z → Outcome () * Z := λ _, returns ().
Definition sample_sleep : Z → Z → Z := λ seconds w, w + seconds.
Definition sample_script : str → Z → Outcome () * Z := λ _, returns ().
Definition sample_quit : Z → Outcome () * Z := returns ().

(** A clock that always reads 0. *)
Definition frozen_clock : Z → Z * Z := λ w, (0, w).

(** [prettify] is not looked into: any function will do. *)
Definition sample_prettify (n : Node) : str := BS4.text n.

Definition sample_stamp : str := lit "2024-05-01T10:00:00.000000+0000".

(** A [strptime] that knows one timestamp. *)
Definition sample_strptime (ts : str) : Outcome Z :=
  if decide (ts = sample_stamp) then Returns 1714557600000000
  else Raises (ValueError (lit "time data does not match format")).

Definition page_title : Node :=
  Tag (lit "title") ∅ [NavigableString (lit "r/LocalLLaMA")].

(** The post of [Samples.page_article], with its time. *)
Definition timed_article : Node :=
  Tag (lit "article") ∅
      [Samples.page_title_link;
       Tag (lit "faceplate-timeago") {[ lit "ts" := sample_stamp ]} [];
       Samples.page_text_body].

(** A page with a title and the timed post, and one with a title and
    the post whose link has no [href]. *)
Definition timed_parser (markup : str) : list Node :=
  [page_title; timed_article].


Definition timed_response : Scraper.Response :=
  {| Scraper.status_code := 200; Scraper.text := Samples.page_markup |}.

Definition fresh_browser_kernel : Selenium.Kernel Z :=
  Selenium.mkKernel 0 ∅ [].

End MoreSamples.

(** * Facts *)

(** ** Python strings and dictionaries *)

Section PyStrFacts.

Lemma lstrip_idemp (s : str) : lstrip (lstrip s) = lstrip s.
Proof.
  induction s as [|c s IH]; [done|].
  cbn. destruct (isspace c) eqn:E; [done|]. cbn. by rewrite E.
Qed.

Lemma rstrip_idemp (s : str) : rstrip (rstrip s) = rstrip s.
Proof.
  unfold rstrip. by rewrite reverse_involutive, lstrip_idemp.
Qed.

(** After [strip], a further [rstrip] finds nothing to remove. *)
Lemma rstrip_strip (s : str) : rstrip (strip s) = strip s.
Proof. apply rstrip_idemp. Qed.

End PyStrFacts.

Section PyDictFacts.
Context {V : Type}.
Implicit Types (d : PyDict.t V) (k : str) (v : V).

Lemma get_set_eq d k v : PyDict.get (PyDict.set d k v) k = Some v.
Proof.
  induction d as [|[k' v'] d IH]; cbn.
  - by rewrite decide_True.
  - destruct (decide (k = k')) as [->|Hne]; cbn.
    + by rewrite decide_True.
    + by rewrite decide_False.
Qed.

Lemma get_set_ne d k k' v :
  k ≠ k' → PyDict.get (PyDict.set d k v) k' = PyDict.get d k'.
Proof.
  intros Hne. induction d as [|[k0 v0] d IH]; cbn.
  - by rewrite decide_False.
  - destruct (decide (k = k0)) as [->|Hne0]; cbn.
    + by rewrite !(decide_False (P := k' = k0)).
    + destruct (decide (k' = k0)); [done|apply IH].
Qed.

Lemma set_Forall (P : str * V → Prop) d k v :
  (∀ k', P (k', v)) → Forall P d → Forall P (PyDict.set d k v).
Proof.
  intros Hv. induction 1 as [|[k0 v0] d H0 Hd IH]; cbn.
  - by constructor.
  - destruct (decide (k = k0)); constructor; auto.
Qed.

(** Assignment keeps one binding per key. *)
Lemma set_keys_NoDup d k v :
  NoDup (PyDict.keys d) → NoDup (PyDict.keys (PyDict.set d k v)).
Proof.
  unfold PyDict.keys. induction d as [|[k0 v0] d IH]; cbn; intros Hnd.
  - apply NoDup_singleton.
  - apply NoDup_cons in Hnd as [Hnotin Hnd].
    destruct (decide (k = k0)) as [->|Hne]; cbn.
    + by apply NoDup_cons.
    + apply NoDup_cons. split; [|by apply IH].
      intros Hin. apply Hnotin. clear -Hin Hne.
      induction d as [|[k1 v1] d IH]; cbn in *.
      * apply list_elem_of_singleton in Hin. congruence.
      * destruct (decide (k = k1)) as [->|]; cbn in *; [done|].
        apply elem_of_cons in Hin as [->|Hin]; [left|right; auto].
Qed.

(** Storing a list of entries in turn: the last entry with a key is
    the one found under it. *)
Lemma get_fold_set (entries : list (str * V)) d k :
  PyDict.get (fold_left (λ d e, PyDict.set d e.1 e.2) entries d) k =
    match last (List.filter (λ e, bool_decide (e.1 = k)) entries) with
    | Some e => Some e.2
    | None => PyDict.get d k
    end.
Proof.
  induction entries as [|e entries IH] using rev_ind; [done|].
  rewrite fold_left_app, List.filter_app. cbn.
  destruct (decide (e.1 = k)) as [<-|Hne].
  - rewrite bool_decide_eq_true_2 by done.
    by rewrite last_snoc, get_set_eq.
  - rewrite bool_decide_eq_false_2 by done.
    by rewrite app_nil_r, get_set_ne.
Qed.

End PyDictFacts.

(** ** example3.ipynb *)

Section ControlFlowFacts.
Import ControlFlow.

Lemma odd_mod_2 (n : Z) : Z.odd n = negb (n `mod` 2 =? 0).
Proof. rewrite Zmod_odd. by destruct (Z.odd n). Qed.

(** C2: [validate_even] raises [ValueError] exactly when the number
    is odd, that is when [number % 2 != 0], and otherwise returns the
    very result it was given; it does nothing else. *)
Theorem validate_even_raises_iff_odd (r : NumberResult) :
  validate_even r =
    (if Z.odd (number r)
     then Raises (ValueError (lit "The number must be even."))
     else Returns r)
  ∧ Z.odd (number r) = negb (number r `mod` 2 =? 0).
Proof.
  split; [|apply odd_mod_2].
  unfold validate_even. by rewrite <- odd_mod_2.
Qed.

(** C6: [approve_code] returns the same approved review for every
    argument, [reject_code] returns a rejected review carrying its
    argument as the issues, and for both [approval] is the truth of
    [status == 'approved']. *)
Theorem review_tools_fixed_outputs
    (result : CodeReview) (issues : list str) :
  approve_code result =
    mkCodeReview (lit "approved") []
      [lit "Code meets all quality standards"] true
  ∧ reject_code issues = mkCodeReview (lit "rejected") issues [] false
  ∧ approval (approve_code result) =
      bool_decide (status (approve_code result) = lit "approved")
  ∧ approval (reject_code issues) =
      bool_decide (status (reject_code issues) = lit "approved").
Proof. repeat split. Qed.

(** C1: whatever the framework is and whatever state it is in,
    [review_code] and [check_even_number] call [cf.run] once, with
    the arguments written in the notebook, and hand back what that
    call produced (its value or its exception) and the state it
    left, untouched. *)
Theorem flows_return_cf_run_result
    (World : Type) (cf_run : RunArgs → World → Outcome Value * World)
    (w : World) (calls : list RunArgs) :
  (∀ code : str,
     review_code World cf_run code (w, calls) =
       ((cf_run (review_code_args code) w).1,
        ((cf_run (review_code_args code) w).2,
         calls ++ [review_code_args code])))
  ∧ (∀ number : Z,
       check_even_number World cf_run number (w, calls) =
         ((cf_run (check_even_number_args number) w).1,
          ((cf_run (check_even_number_args number) w).2,
           calls ++ [check_even_number_args number]))).
Proof.
  split; intros x.
  - unfold review_code, call_cf_run, mbind, Eff_bind, eff_bind,
      mret, Eff_ret, eff_ret.
    destruct (cf_run _ w) as [[a|e] w']; reflexivity.
  - unfold check_even_number, call_cf_run, mbind, Eff_bind, eff_bind,
      mret, Eff_ret, eff_ret.
    destruct (cf_run _ w) as [[a|e] w']; reflexivity.
Qed.

End ControlFlowFacts.

(** ** The PRAW cell *)

Section PrawFacts.
Import Praw.

Lemma get_comments_with_replies_lines (c : Item) :
  ∀ depth level,
    match c with
    | Comment _ _ =>
        get_comments_with_replies c depth = Ok (lines_at depth level c)
    | MoreComments _ => lines_at depth level c = []
    end.
Proof.
  induction c as [body replies IH | hidden _] using Item_nested_ind;
    intros depth level; [|done].
  cbn [get_comments_with_replies].
  set (loop := fix loop (rs : list Item) (comments_list : list str) := _).
  assert (Hloop : ∀ rs, Forall
            (λ c, ∀ depth level,
               match c with
               | Comment _ _ =>
                   get_comments_with_replies c depth =
                     Ok (lines_at depth level c)
               | MoreComments _ => lines_at depth level c = []
               end) rs →
          ∀ acc, loop rs acc =
                 Ok (acc ++ (r ← rs; lines_at (depth + 1) (S level) r))).
  { induction 1 as [|r rs Hr _ IHrs]; intros acc.
    - cbn. by rewrite app_nil_r.
    - destruct r as [b rp | h].
      + cbn [loop]. rewrite (Hr (depth + 1) (S level)). fold loop.
        rewrite IHrs. cbn [mbind list_bind]. by rewrite app_assoc.
      + cbn [loop]. fold loop. rewrite IHrs. cbn [mbind list_bind].
        by rewrite (Hr (depth + 1) (S level)). }
  assert (Hshift : ∀ rs : list Item,
            (r ← rs; lines_at (depth + 1) (S level) r) =
            (λ '(l, body),
               format_line (depth + (Z.of_nat l - Z.of_nat level)) body)
              <$> (r ← rs; reached (S level) r)).
  { induction rs as [|r rs IHrs]; [done|].
    rewrite !bind_cons, fmap_app, IHrs. f_equal.
    unfold lines_at. apply list_fmap_ext. intros _ [l b] _. cbn.
    f_equal. lia. }
  unfold lines_at. cbn [reached fmap list_fmap].
  replace (depth + (Z.of_nat level - Z.of_nat level)) with depth by lia.
  destruct replies as [rs|]; lazy beta iota zeta.
  - by rewrite (Hloop rs (IH rs eq_refl)), Hshift.
  - reflexivity.
Qed.

(** C9, amended: on every comment tree and for every [depth] the
    function returns (it never raises), with one line per comment
    reached depth first, [MoreComments] and what they hide passed
    over; a comment [level] levels below the start is written as two
    spaces per unit of [depth + level] (none when that is not
    positive), then "- ", then its body; a comment without a
    [replies] attribute gives what one with no replies gives. *)
Theorem get_comments_with_replies_depth_first
    (body : str) (replies : option (list Item)) (depth : Z) :
  get_comments_with_replies (Comment body replies) depth =
    Ok (lines_from depth (Comment body replies))
  ∧ get_comments_with_replies (Comment body None) depth =
      get_comments_with_replies (Comment body (Some [])) depth
  ∧ length (lines_from depth (Comment body replies)) =
      length (reached 0 (Comment body replies)).
Proof.
  split; [|split].
  - rewrite (get_comments_with_replies_lines
               (Comment body replies) depth 0%nat).
    unfold lines_at, lines_from. f_equal. apply list_fmap_ext.
    intros _ [l b] _. cbn. f_equal. lia.
  - reflexivity.
  - unfold lines_from. by rewrite length_fmap.
Qed.

(** The thread from depth 0: the placeholder and what it hides leave
    no line. *)
Example thread_lines :
  get_comments_with_replies Samples.thread 0 =
    Ok [lit "- top"; lit "  - first reply"; lit "  - second reply";
        lit "    - nested"].
Proof. reflexivity. Qed.

(** C9 as written fails: started at depth 1, a lone comment is
    written with two spaces in front, not with none. *)
Lemma indentation_counts_the_starting_depth :
  get_comments_with_replies Samples.lone_comment 1 = Ok [lit "  - x"]
  ∧ lines_as_described Samples.lone_comment = [lit "- x"]
  ∧ get_comments_with_replies Samples.lone_comment 1 ≠
      Ok (lines_as_described Samples.lone_comment).
Proof. repeat split. vm_compute. discriminate. Qed.

End PrawFacts.

(** ** The scraping cell *)

Section ScraperFacts.
Import BS4 Scraper.

Context {World : Type}.
Variable requests_get :
  str → gmap str str → World → Outcome Response * World.
Variable datetime_now : World → Z * World.
Variable html_parser : str → list Node.

Abbreviation Kernel := (Kernel World).
Abbreviation scraper_cell :=
  (scraper_cell World requests_get datetime_now html_parser).
Abbreviation after :=
  (after World requests_get datetime_now html_parser).
Abbreviation article_body := (article_body World).
Abbreviation print_post := (print_post World).
Abbreviation for_each := (for_each World).

Ltac run :=
  lazy beta iota zeta
    delta [mbind Eff_bind eff_bind mret Eff_ret eff_ret raise
           assign emit lift field load_posts from_option];
  cbn [world globals events fst snd].

Lemma bind_run {A B} (m : Cell World A) (f : A → Cell World B) (k : Kernel) :
  (m ≫= f) k =
    match m k with
    | (Returns a, k') => f a k'
    | (Raises e, k') => (Raises e, k')
    end.
Proof. reflexivity. Qed.

(** One pass of the article loop changes nothing but the globals, and
    [posts_details] as [collect_one] says. *)
Lemma article_body_collect_one (article : Node) (k : Kernel) d :
  globals k !! "posts_details" = Some (VPosts d) →
  (article_body article k).1 = (collect_one article d).1
  ∧ globals (article_body article k).2 !! "posts_details" =
      Some (VPosts (collect_one article d).2)
  ∧ world (article_body article k).2 = world k
  ∧ events (article_body article k).2 = events k.
Proof.
  intros Hd. unfold Scraper.article_body, collect_one, getitem.
  destruct (find article (lit "a") slot_title) as [title_tag|].
  - destruct (attr title_tag (lit "href")) as [link|]; run.
    + rewrite !lookup_insert_ne, Hd by done. run.
      by rewrite lookup_insert_eq.
    + by rewrite !lookup_insert_ne by done.
  - run. by rewrite !lookup_insert_ne by done.
Qed.

Lemma for_each_articles_collect (articles : list Node) :
  ∀ (k : Kernel) d,
    globals k !! "posts_details" = Some (VPosts d) →
    (for_each articles article_body k).1 = (collect articles d).1
    ∧ globals (for_each articles article_body k).2 !! "posts_details" =
        Some (VPosts (collect articles d).2)
    ∧ world (for_each articles article_body k).2 = world k
    ∧ events (for_each articles article_body k).2 = events k.
Proof.
  induction articles as [|article rest IH]; intros k d Hd; [done|].
  destruct (article_body_collect_one article k d Hd) as (Ho & Hg & Hw & He).
  cbn [Scraper.for_each collect]. rewrite bind_run.
  destruct (article_body article k) as [[[]|e] k1]; cbn in Ho, Hg, Hw, He;
    destruct (collect_one article d) as [[[]|e'] d1]; cbn in Ho, Hg;
    simplify_eq.
  - destruct (IH k1 d1 Hg) as (? & ? & ? & ?). repeat split; congruence.
  - by repeat split.
Qed.

Lemma details_of_link link content_text :
  details_of link content_text !! lit "link" = Some link.
Proof. unfold details_of. by rewrite lookup_insert_eq. Qed.

Lemma details_of_content link content_text :
  details_of link content_text !! lit "content" =
    Some (replace_char newline [] (rstrip content_text)).
Proof.
  unfold details_of.
  rewrite lookup_insert_ne by (vm_compute; discriminate).
  by rewrite lookup_singleton_eq.
Qed.

Lemma collect_printable (articles : list Node) :
  ∀ d, Forall printable d → Forall printable (collect articles d).2.
Proof.
  induction articles as [|article rest IH]; intros d Hd; [done|].
  cbn [collect]. unfold collect_one, getitem.
  destruct (find article (lit "a") slot_title) as [title_tag|]; [|by apply IH].
  destruct (attr title_tag (lit "href")) as [link|]; [|done].
  apply IH, set_Forall; [|done]. intros k'. by eexists _, _.
Qed.

Lemma print_post_run title link content_text (k : Kernel) :
  print_post (title, details_of link content_text) k =
    (Returns (),
     {| world := world k;
        globals :=
          <["details" := VDetails (details_of link content_text)]>
            (<["title" := VStr title]> (globals k));
        events :=
          events k ++ print_line (title, details_of link content_text) |}).
Proof.
  unfold Scraper.print_post, print_line. cbn [fst snd]. run.
  rewrite details_of_link. run. rewrite details_of_content. by run.
Qed.

Lemma for_each_print_post (d : list (str * gmap str str)) :
  ∀ k : Kernel,
    Forall printable d →
    (for_each d print_post k).1 = Returns ()
    ∧ globals (for_each d print_post k).2 !! "posts_details" =
        globals k !! "posts_details"
    ∧ world (for_each d print_post k).2 = world k
    ∧ events (for_each d print_post k).2 = events k ++ (d ≫= print_line).
Proof.
  induction d as [|[title details] d IH]; intros k Hd.
  - cbn. by rewrite app_nil_r.
  - apply Forall_cons in Hd as [(link & ct & Hdet) Hd].
    cbn [snd] in Hdet. subst details.
    cbn [Scraper.for_each]. rewrite bind_run, print_post_run.
    match goal with |- context [for_each d print_post ?k1] =>
      destruct (IH k1 Hd) as (Ho & Hg & Hw & He) end.
    cbn [world globals events] in Hg, Hw, He.
    rewrite Ho, Hg, Hw, He. repeat split.
    + by rewrite !lookup_insert_ne by done.
    + by rewrite bind_cons, <- app_assoc.
Qed.

(** A response that is not a 200: one fetch, one printed line, three
    names bound, nothing else. *)
Lemma scraper_cell_not_200 (k : Kernel) r w' :
  requests_get url_hot headers_sent (world k) = (Returns r, w') →
  status_code r ≠ 200 →
  scraper_cell k =
    (Returns (),
     {| world := w';
        globals :=
          <["response" := VResponse r]>
            (<["headers" := VHeaders headers_sent]>
               (<["url" := VStr url_hot]> (globals k)));
        events :=
          events k ++ [Fetch url_hot headers_sent; Print (failure_line r)] |}).
Proof.
  intros Hget Hne. unfold Scraper.scraper_cell, get. run.
  rewrite Hget. run.
  rewrite (proj2 (Z.eqb_neq _ _) Hne). run.
  by rewrite <- app_assoc.
Qed.

(** A 200: the records are those of the article loop run on an empty
    dictionary, whatever the kernel held before. *)
Lemma scraper_cell_200 (k : Kernel) r w' :
  requests_get url_hot headers_sent (world k) = (Returns r, w') →
  status_code r = 200 →
  let articles := find_all_in (html_parser (text r)) (lit "article") None in
  (scraper_cell k).1 = (collect articles []).1
  ∧ globals (scraper_cell k).2 !! "posts_details" =
      Some (VPosts (collect articles []).2)
  ∧ world (scraper_cell k).2 = (datetime_now w').2
  ∧ events (scraper_cell k).2 =
      events k ++ [Fetch url_hot headers_sent; Parse (text r)] ++
      match (collect articles []).1 with
      | Returns _ => (collect articles []).2 ≫= print_line
      | Raises _ => []
      end.
Proof.
  intros Hget H200 articles.
  unfold Scraper.scraper_cell, get, now, BeautifulSoup. run.
  rewrite Hget. run. rewrite H200. cbn [Z.eqb Pos.eqb]. run.
  destruct (datetime_now w') as [t w''] eqn:Hnow. run.
  fold articles.
  match goal with |- context [for_each articles article_body ?k1] =>
    set (k0 := k1) end.
  destruct (for_each_articles_collect articles k0 [])
    as (Ho & Hg & Hw & He); [by unfold k0; cbn; rewrite lookup_insert_eq|].
  pose proof (collect_printable articles [] (Forall_nil_2 _)) as Hp.
  destruct (for_each articles article_body k0) as [[[]|e] k1];
    cbn [fst snd] in Ho, Hg, Hw, He; rewrite <- Ho; run.
  - rewrite Hg. run.
    destruct (for_each_print_post (collect articles []).2 k1 Hp)
      as (Ho' & Hg' & Hw' & He').
    rewrite Ho', Hg', Hw', He', Hg, Hw, He. unfold k0. cbn.
    by rewrite <- !app_assoc.
  - rewrite Hg, Hw, He. unfold k0. cbn. by rewrite <- !app_assoc.
Qed.

(** What the cell stores for an article is the record with the
    newlines of the text taken out. *)
Lemma details_of_content_kept (article : Node) link :
  details_of link (content_stripped article) =
    {[ lit "link" := link; lit "content" := content_kept article ]}.
Proof.
  unfold details_of, content_stripped, content_kept.
  destruct (find article (lit "div") text_body) as [content|].
  - by rewrite rstrip_strip.
  - reflexivity.
Qed.

(** When every title link has an [href] the article loop does not
    raise, and stores the records of the articles in turn. *)
Lemma collect_stores_records (articles : list Node) :
  links_have_href articles →
  ∀ d,
    (collect articles d).1 = Returns ()
    ∧ (collect articles d).2 =
        fold_left (λ d e, PyDict.set d e.1 e.2)
                  (omap (record_with content_kept) articles) d.
Proof.
  induction 1 as [|article rest Hhref _ IH]; intros d; [done|].
  cbn [collect omap list_omap]. unfold collect_one, record_with, getitem.
  destruct (find article (lit "a") slot_title) as [title_tag|] eqn:Hfind;
    cbn [mbind option_bind]; [|apply IH].
  destruct (Hhref title_tag eq_refl) as [link Hlink]. rewrite Hlink.
  cbn [mbind option_bind fold_left fst snd].
  fold (content_stripped article).
  rewrite details_of_content_kept. apply IH.
Qed.

(** C4, amended: after a 200 whose title links all have an [href],
    the cell ends without raising and [posts_details] holds, under
    each stripped title text, the record of the last article with
    that title and nothing under any other key; a record is the
    dictionary with the two fields 'link', the title link's href,
    and 'content', the stripped text-body text with every newline
    removed, or 'No content' when there is no text-body div. *)
Theorem scraper_keeps_last_record_per_title (k : Kernel) r w' :
  requests_get url_hot headers_sent (world k) = (Returns r, w') →
  status_code r = 200 →
  links_have_href (find_all_in (html_parser (text r)) (lit "article") None) →
  (scraper_cell k).1 = Returns ()
  ∧ ∀ key,
      PyDict.get (posts_of (after k)) key =
        last_record content_kept
          (find_all_in (html_parser (text r)) (lit "article") None) key.
Proof.
  intros Hget H200 Hhref.
  destruct (scraper_cell_200 k r w' Hget H200) as (Ho & Hg & _ & _).
  destruct (collect_stores_records _ Hhref []) as [Hret Hfold].
  split; [congruence|]. intros key.
  unfold Scraper.after, posts_of, last_record. rewrite Hg, Hfold, get_fold_set.
  by destruct (last _).
Qed.

(** C5, amended: on a response whose status is not 200 the cell makes
    its one fetch, parses nothing, prints the line with the status
    code and ends; it binds [url], [headers] and [response] and
    leaves [posts_details] as it found it, unbound or with the
    records of an earlier run. *)
Theorem scraper_failure_leaves_posts_untouched (k : Kernel) r w' :
  requests_get url_hot headers_sent (world k) = (Returns r, w') →
  status_code r ≠ 200 →
  (scraper_cell k).1 = Returns ()
  ∧ events (after k) =
      events k ++ [Fetch url_hot headers_sent; Print (failure_line r)]
  ∧ globals (after k) =
      <["response" := VResponse r]>
        (<["headers" := VHeaders headers_sent]>
           (<["url" := VStr url_hot]> (globals k)))
  ∧ globals (after k) !! "posts_details" = globals k !! "posts_details"
  ∧ posts_of (after k) = posts_of k
  ∧ fetches (after k) = fetches k ++ [Fetch url_hot headers_sent]
  ∧ parses (after k) = parses k.
Proof.
  intros Hget Hne. unfold Scraper.after, fetches, parses.
  rewrite (scraper_cell_not_200 k r w' Hget Hne). cbn [fst snd events globals].
  assert (Hsame :
    (<["response" := VResponse r]>
       (<["headers" := VHeaders headers_sent]>
          (<["url" := VStr url_hot]> (globals k))) : gmap string Value)
      !! "posts_details" = globals k !! "posts_details")
    by by rewrite !lookup_insert_ne.
  repeat split; [done| |by rewrite List.filter_app
                       |by rewrite List.filter_app, app_nil_r].
  unfold posts_of. cbn [globals]. by rewrite Hsame.
Qed.

(** Every run makes exactly one fetch, whatever comes back. *)
Lemma printed_lines_are_no_fetches (d : list (str * gmap str str)) :
  List.filter (λ e, match e with Fetch _ _ => true | _ => false end)
              (d ≫= print_line) = [].
Proof.
  induction d as [|e d IH]; [done|].
  rewrite bind_cons, List.filter_app, IH, app_nil_r.
  unfold print_line. by destruct (e.2 !! lit "link"), (e.2 !! lit "content").
Qed.

Lemma one_fetch_per_run (k : Kernel) :
  fetches (after k) = fetches k ++ [Fetch url_hot headers_sent].
Proof.
  destruct (requests_get url_hot headers_sent (world k)) as [[r|e] w'] eqn:Hget.
  - destruct (decide (status_code r = 200)) as [H200|Hne].
    + destruct (scraper_cell_200 k r w' Hget H200) as (_ & _ & _ & He).
      unfold fetches, Scraper.after. rewrite He, !List.filter_app. cbn.
      f_equal. destruct (collect _ _).1; [|done].
      by rewrite printed_lines_are_no_fetches.
    + unfold fetches, Scraper.after.
      rewrite (scraper_cell_not_200 k r w' Hget Hne). cbn [snd events].
      by rewrite List.filter_app.
  - unfold fetches, Scraper.after, Scraper.scraper_cell, get. run.
    rewrite Hget. run. by rewrite List.filter_app.
Qed.

End ScraperFacts.

(** C8: two runs that fetch the same page with status 200 end with the
    same [posts_details] (and the same outcome), whatever the two
    kernels held before and whatever the world and the clock are at
    each run. *)
Theorem parsing_ignores_earlier_state
    (World : Type)
    (requests_get :
       str → gmap str str → World → Outcome Scraper.Response * World)
    (datetime_now : World → Z * World)
    (html_parser : str → list BS4.Node)
    (k1 k2 : Scraper.Kernel World) (r : Scraper.Response) (w1 w2 : World) :
  requests_get Scraper.url_hot Scraper.headers_sent (Scraper.world k1)
    = (Returns r, w1) →
  requests_get Scraper.url_hot Scraper.headers_sent (Scraper.world k2)
    = (Returns r, w2) →
  Scraper.status_code r = 200 →
  Scraper.globals
      (Scraper.after World requests_get datetime_now html_parser k1)
      !! "posts_details" =
    Scraper.globals
      (Scraper.after World requests_get datetime_now html_parser k2)
      !! "posts_details"
  ∧ Scraper.posts_of
      (Scraper.after World requests_get datetime_now html_parser k1) =
    Scraper.posts_of
      (Scraper.after World requests_get datetime_now html_parser k2)
  ∧ (Scraper.scraper_cell World requests_get datetime_now html_parser k1).1 =
    (Scraper.scraper_cell World requests_get datetime_now html_parser k2).1.
Proof.
  intros Hget1 Hget2 H200.
  destruct (scraper_cell_200 requests_get datetime_now html_parser
              k1 r w1 Hget1 H200) as (Ho1 & Hg1 & _ & _).
  destruct (scraper_cell_200 requests_get datetime_now html_parser
              k2 r w2 Hget2 H200) as (Ho2 & Hg2 & _ & _).
  unfold Scraper.after, Scraper.posts_of.
  rewrite Hg1, Hg2, Ho1, Ho2. done.
Qed.

(** *** The cell on the sample page *)

Section ScraperSamples.
Import BS4 Scraper Samples.

Lemma page_articles :
  find_all_in (page_parser page_markup) (lit "article") None = [page_article].
Proof. by vm_compute. Qed.

Lemma page_links_have_href :
  links_have_href
    (find_all_in (page_parser (text page_response)) (lit "article") None).
Proof.
  change (text page_response) with page_markup. rewrite page_articles.
  repeat constructor. intros title_tag Hfind.
  vm_compute in Hfind. injection Hfind as <-. by eexists.
Defined.

(** The run on the sample page stores one record, the two lines of
    the post joined without the newline. *)
Example page_run_records :
  posts_of (after Z (answer page_response) tick page_parser fresh_kernel) =
    [(lit "New model",
      {[ lit "link" := lit "/r/LocalLLaMA/comments/1";
         lit "content" := lit "line oneline two" ]})].
Proof. by vm_compute. Qed.

(** Two posts with one title leave one record, that of the second;
    the key is the stripped title. *)
Example twin_run_records :
  posts_of (after Z (answer page_response) tick twin_parser fresh_kernel) =
    [(lit "Same title",
      {[ lit "link" := lit "/second"; lit "content" := lit "second text" ]})].
Proof. by vm_compute. Qed.

(** A title link without [href] stops the cell with [KeyError]. *)
Example bare_run_raises :
  (scraper_cell Z (answer page_response) tick bare_parser fresh_kernel).1 =
    Raises (KeyError (lit "href")).
Proof. by vm_compute. Qed.

(** C4 as written fails: the post of the sample page has the text
    "line one", newline, "line two"; stripped it keeps its newline,
    the stored 'content' does not. *)
Lemma stored_content_loses_its_newlines :
  ¬ records_as_described Z (answer page_response) tick page_parser
      fresh_kernel.
Proof.
  intros H.
  assert (Hin : page_article ∈
            find_all_in (page_parser (text page_response))
                        (lit "article") None)
    by (change (text page_response) with page_markup;
        rewrite page_articles; apply list_elem_of_singleton; done).
  specialize (H page_response 1 eq_refl eq_refl page_article
                (lit "New model")
                {[ lit "link" := lit "/r/LocalLLaMA/comments/1";
                   lit "content" :=
                     lit "line one" ++ [newline] ++ lit "line two" ]}
                Hin).
  assert (Hrec : PyDict.get
                   (posts_of (after Z (answer page_response) tick
                                page_parser fresh_kernel))
                   (lit "New model") ≫= (.!! lit "content") =
                 Some (lit "line one" ++ [newline] ++ lit "line two")).
  { rewrite H by (by vm_compute). by vm_compute. }
  vm_compute in Hrec. discriminate.
Qed.

(** C5 as written fails: in a kernel where an earlier run left a
    record, a run answered with status 429 ends with that record
    still in [posts_details]. *)
Lemma stale_records_survive_a_failed_fetch :
  ¬ failure_as_described Z (answer busy_response) tick page_parser
      used_kernel.
Proof.
  intros H.
  destruct (H busy_response 101 eq_refl) as [_ Hposts]; [by vm_compute|].
  vm_compute in Hposts. discriminate.
Qed.

Lemma scraper_keeps_last_record_per_title_witness :
  (scraper_cell Z (answer page_response) tick page_parser fresh_kernel).1
    = Returns ()
  ∧ ∀ key,
      PyDict.get
        (posts_of (after Z (answer page_response) tick page_parser
                     fresh_kernel)) key =
        last_record content_kept
          (find_all_in (page_parser (text page_response))
                       (lit "article") None) key.
Proof.
  apply (scraper_keeps_last_record_per_title
           (answer page_response) tick page_parser
           fresh_kernel page_response 1).
  - reflexivity.
  - reflexivity.
  - exact page_links_have_href.
Defined.

Lemma scraper_failure_leaves_posts_untouched_witness :
  posts_of (after Z (answer busy_response) tick page_parser used_kernel) =
    posts_of used_kernel.
Proof.
  apply (scraper_failure_leaves_posts_untouched
           (answer busy_response) tick page_parser
           used_kernel busy_response 101).
  - reflexivity.
  - vm_compute. discriminate.
Defined.

Lemma parsing_ignores_earlier_state_witness :
  posts_of (after Z (answer page_response) tick page_parser fresh_kernel) =
    posts_of (after Z (answer page_response) tick page_parser used_kernel).
Proof.
  apply (parsing_ignores_earlier_state Z
           (answer page_response) tick page_parser
           fresh_kernel used_kernel page_response 1 101).
  - reflexivity.
  - reflexivity.
  - reflexivity.
Defined.

End ScraperSamples.

(** ** The stored files *)

Section RepositoryFacts.
Import Repository.

(** C7, at the stored file: the prose of [summarize.txt] carries the
    five placeholders, and after it the file holds a notebook with
    eight code cells, among them the scraping cell with its
    [requests.get] call. *)
Theorem summarize_txt_holds_notebook_code :
  (prose_lines summarize_txt ≫= placeholders) =
    ["title"; "description"; "transcript"; "predefined_topics"; "summary"]
  ∧ length (code_cells summarize_txt) = 8%nat
  ∧ existsb (cell_calls "response = requests.get(url, headers=headers)")
            (code_cells summarize_txt) = true.
Proof. by vm_compute. Qed.

(** C3, at the stored file: [summarize.txt] is at once a prompt
    template and the holder of an executable scraping script. *)
Theorem summarize_txt_mixes_template_and_scraper :
  holds_prompt_template summarize_txt = true
  ∧ holds_scraping_script summarize_txt = true.
Proof. by vm_compute. Qed.

End RepositoryFacts.

(** * Further facts *)

(** ** Stripping *)

Section StripFacts.

Lemma lstrip_head (s : str) c : head (lstrip s) = Some c → isspace c = false.
Proof.
  induction s as [|x s IH]; [done|]. cbn.
  destruct (isspace x) eqn:E; [done|]. cbn. by intros [= <-].
Qed.

Lemma lstrip_snoc (s : str) c :
  isspace c = false → lstrip (s ++ [c]) = lstrip s ++ [c].
Proof.
  intros Hc. induction s as [|x s IH]; cbn; [by rewrite Hc|].
  by destruct (isspace x).
Qed.

Lemma lstrip_fixed (s : str) :
  (∀ c, head s = Some c → isspace c = false) → lstrip s = s.
Proof.
  destruct s as [|x s]; [done|]. intros H. cbn. by rewrite (H x eq_refl).
Qed.

Lemma rstrip_cons (s : str) c :
  isspace c = false → rstrip (c :: s) = c :: rstrip s.
Proof.
  intros Hc. unfold rstrip.
  by rewrite reverse_cons, lstrip_snoc, reverse_app.
Qed.

Lemma strip_idemp (s : str) : strip (strip s) = strip s.
Proof.
  unfold strip. destruct (lstrip s) as [|c t] eqn:E; [done|].
  assert (Hc : isspace c = false) by (apply (lstrip_head s); by rewrite E).
  rewrite rstrip_cons by done. cbn [lstrip]. rewrite Hc.
  by rewrite rstrip_cons, rstrip_idemp.
Qed.

Lemma replace_char_removes (old : N) (s : str) : old ∉ replace_char old [] s.
Proof.
  unfold replace_char. intros Hin.
  apply list_elem_of_bind in Hin as (y & Hin & _).
  destruct (decide (y = old)) as [->|Hne].
  - by apply elem_of_nil in Hin.
  - apply list_elem_of_singleton in Hin. congruence.
Qed.

End StripFacts.

(** ** The scraping cell: errors, order and shape of the records *)

Section PyDictOrder.
Context {V : Type}.
Implicit Types (d : PyDict.t V) (k : str) (v : V).

Lemma keys_set d k v :
  PyDict.keys (PyDict.set d k v) =
    if decide (k ∈ PyDict.keys d) then PyDict.keys d
    else PyDict.keys d ++ [k].
Proof.
  unfold PyDict.keys. induction d as [|[k0 v0] d IH]; cbn.
  - rewrite decide_False; [done|]. apply not_elem_of_nil.
  - destruct (decide (k = k0)) as [->|Hne]; cbn.
    + rewrite decide_True; [done|]. by left.
    + rewrite IH. destruct (decide (k ∈ fst <$> d)) as [Hin|Hnin].
      * rewrite decide_True; [done|]. by right.
      * rewrite decide_False; [done|].
        intros [?|?]%elem_of_cons; congruence.
Qed.

Lemma keys_fold_set (entries : list (str * V)) d :
  PyDict.keys (fold_left (λ d e, PyDict.set d e.1 e.2) entries d) =
    foldl (λ seen k, if decide (k ∈ seen) then seen else seen ++ [k])
          (PyDict.keys d) (fst <$> entries).
Proof.
  revert d. induction entries as [|e entries IH]; intros d; [done|].
  cbn [fold_left foldl fmap list_fmap]. by rewrite IH, keys_set.
Qed.

End PyDictOrder.

Section ScraperMore.
Import BS4 Scraper ScraperOrder.

Context {World : Type}.
Variable requests_get :
  str → gmap str str → World → Outcome Response * World.
Variable datetime_now : World → Z * World.
Variable html_parser : str → list Node.

Abbreviation cell :=
  (scraper_cell World requests_get datetime_now html_parser).
Abbreviation left_by :=
  (after World requests_get datetime_now html_parser).

Ltac step :=
  lazy beta iota zeta
    delta [mbind Eff_bind eff_bind mret Eff_ret eff_ret raise
           assign emit lift field load_posts from_option];
  cbn [world globals events fst snd].

(** X1: when [requests.get] raises, the cell raises the same
    exception; it has bound [url] and [headers] only, made its one
    fetch, parsed and printed nothing. *)
Theorem scraper_fetch_error_propagates (k : Kernel World) e w' :
  requests_get url_hot headers_sent (world k) = (Raises e, w') →
  cell k =
    (Raises e,
     {| world := w';
        globals :=
          <["headers" := VHeaders headers_sent]>
            (<["url" := VStr url_hot]> (globals k));
        events := events k ++ [Fetch url_hot headers_sent] |}).
Proof.
  intros Hget. unfold scraper_cell, get. step. rewrite Hget. by step.
Qed.

Lemma collect_app (pre rest : list Node) d :
  collect (pre ++ rest) d =
    match collect pre d with
    | (Returns _, d') => collect rest d'
    | (Raises e, d') => (Raises e, d')
    end.
Proof.
  revert d. induction pre as [|a pre IH]; intros d; [done|].
  cbn [app collect]. destruct (collect_one a d) as [[[]|e] d']; [apply IH|done].
Qed.

(** X2: when the first title link without an [href] belongs to the
    article after [before], the cell raises [KeyError('href')], has
    printed nothing, and leaves in [posts_details] the records of the
    articles in [before]. *)
Theorem scraper_missing_href_keeps_earlier_records
    (k : Kernel World) r w' (before rest : list Node) (bad title_tag : Node) :
  requests_get url_hot headers_sent (world k) = (Returns r, w') →
  status_code r = 200 →
  find_all_in (html_parser (text r)) (lit "article") None =
    before ++ bad :: rest →
  links_have_href before →
  find bad (lit "a") slot_title = Some title_tag →
  attr title_tag (lit "href") = None →
  (cell k).1 = Raises (KeyError (lit "href"))
  ∧ events (left_by k) =
      events k ++ [Fetch url_hot headers_sent; Parse (text r)]
  ∧ ∀ key,
      PyDict.get (posts_of (left_by k)) key =
        last_record content_kept before key.
Proof.
  intros Hget H200 Harts Hhref Hfind Hattr.
  destruct (scraper_cell_200 requests_get datetime_now html_parser
              k r w' Hget H200) as (Ho & Hg & _ & He).
  rewrite Harts in Ho, Hg, He.
  assert (Hc : collect (before ++ bad :: rest) [] =
               (Raises (KeyError (lit "href")),
                fold_left (λ d e, PyDict.set d e.1 e.2)
                          (omap (record_with content_kept) before) [])).
  { rewrite collect_app.
    destruct (collect_stores_records before Hhref []) as [Hret Hfold].
    destruct (collect before []) as [[[]|e] d']; [|done].
    cbn in Hfold. subst d'. cbn [collect]. unfold collect_one, getitem.
    by rewrite Hfind, Hattr. }
  rewrite Hc in Ho, Hg, He. cbn [fst snd] in Ho, Hg, He.
  unfold Scraper.after. split; [done|]. split; [by rewrite He|].
  intros key. unfold posts_of, last_record.
  rewrite Hg, get_fold_set. by destruct (last _).
Qed.

Lemma set_tidy d k v :
  tidy (k, v) → Forall tidy d → Forall tidy (PyDict.set d k v).
Proof.
  intros Hv. induction 1 as [|[k0 v0] d H0 Hd IH]; cbn.
  - by constructor.
  - destruct (decide (k = k0)) as [->|]; constructor; auto.
Qed.

Lemma collect_tidy (articles : list Node) :
  ∀ d, Forall tidy d → Forall tidy (collect articles d).2.
Proof.
  induction articles as [|article rest IH]; intros d Hd; [done|].
  cbn [collect]. unfold collect_one, getitem.
  destruct (find article (lit "a") slot_title) as [title_tag|]; [|by apply IH].
  destruct (attr title_tag (lit "href")) as [link|]; [|done].
  apply IH, set_tidy; [|done]. split; [apply strip_idemp|].
  eexists _, _. split; [reflexivity|]. apply replace_char_removes.
Qed.

(** X3: after any run answered with status 200, also one that
    raised, every entry of [posts_details] has a key without white
    space at either end and a record with exactly the fields 'link'
    and 'content', the content without any newline; no key occurs
    twice. *)
Theorem scraper_records_are_tidy (k : Kernel World) r w' :
  requests_get url_hot headers_sent (world k) = (Returns r, w') →
  status_code r = 200 →
  Forall tidy (posts_of (left_by k))
  ∧ NoDup (PyDict.keys (posts_of (left_by k))).
Proof.
  intros Hget H200.
  destruct (scraper_cell_200 requests_get datetime_now html_parser
              k r w' Hget H200) as (_ & Hg & _ & _).
  unfold after, posts_of. rewrite Hg. split.
  - by apply collect_tidy.
  - generalize (find_all_in (html_parser (text r)) (lit "article") None).
    intros articles.
    assert (Hgen : ∀ d : PyDict.t (gmap str str),
              NoDup (PyDict.keys d) →
              NoDup (PyDict.keys (collect articles d).2)).
    { induction articles as [|a rest IH]; intros d Hd; [done|].
      cbn [collect]. unfold collect_one, getitem.
      destruct (find a (lit "a") slot_title) as [title_tag|]; [|by apply IH].
      destruct (attr title_tag (lit "href")) as [link|]; [|done].
      by apply IH, set_keys_NoDup. }
    apply Hgen, NoDup_nil_2.
Qed.

Lemma titles_of_records (articles : list Node) :
  links_have_href articles →
  fst <$> omap (record_with content_kept) articles = titles articles.
Proof.
  unfold titles. induction 1 as [|a rest Hhref _ IH]; [done|].
  cbn [omap list_omap]. rewrite bind_cons. unfold record_with at 1.
  destruct (find a (lit "a") slot_title) as [title_tag|];
    cbn [mbind option_bind]; [|done].
  destruct (Hhref title_tag eq_refl) as [link ->].
  cbn [mbind option_bind fmap list_fmap fst app]. by rewrite IH.
Qed.

Lemma one_block_per_record (d : list (str * gmap str str)) :
  Forall printable d → length (d ≫= print_line) = length d.
Proof.
  induction 1 as [|e d (link & ct & Hrec) _ IH]; [done|].
  rewrite bind_cons, length_app, IH. unfold print_line.
  by rewrite Hrec, details_of_link, details_of_content.
Qed.

(** X4: a run answered with status 200 in which every title link has
    an [href] prints, after its fetch and its parse, one block per
    stored record, in the order of the dictionary; that order is the
    order in which the titles are first seen on the page. *)
Theorem scraper_prints_records_in_first_seen_order (k : Kernel World) r w' :
  requests_get url_hot headers_sent (world k) = (Returns r, w') →
  status_code r = 200 →
  links_have_href (find_all_in (html_parser (text r)) (lit "article") None) →
  events (left_by k) =
    events k ++ [Fetch url_hot headers_sent; Parse (text r)] ++
    (posts_of (left_by k) ≫= print_line)
  ∧ length (posts_of (left_by k) ≫= print_line) =
      length (posts_of (left_by k))
  ∧ PyDict.keys (posts_of (left_by k)) =
      first_seen
        (titles (find_all_in (html_parser (text r)) (lit "article") None)).
Proof.
  intros Hget H200 Hhref.
  destruct (scraper_cell_200 requests_get datetime_now html_parser
              k r w' Hget H200) as (_ & Hg & _ & He).
  destruct (collect_stores_records _ Hhref []) as [Hret Hfold].
  pose proof (collect_printable
                (find_all_in (html_parser (text r)) (lit "article") None)
                [] (Forall_nil_2 _)) as Hp.
  unfold after, posts_of. rewrite Hg. rewrite Hret in He.
  split; [done|]. split.
  - by apply one_block_per_record.
  - rewrite Hfold, keys_fold_set, titles_of_records by done. done.
Qed.

(** X15: every run makes its one fetch first, whatever comes back:
    an exception, a status other than 200, or a page; nothing that
    follows is a fetch. *)
Theorem every_run_starts_with_its_only_fetch (k : Kernel World) :
  ∃ rest,
    events (left_by k) = events k ++ Fetch url_hot headers_sent :: rest
    ∧ Forall (λ e, match e with Fetch _ _ => False | _ => True end) rest.
Proof.
  unfold Scraper.after.
  destruct (requests_get url_hot headers_sent (world k)) as [[r|e] w'] eqn:Hget.
  - destruct (decide (status_code r = 200)) as [H200|Hne].
    + destruct (scraper_cell_200 requests_get datetime_now html_parser
                  k r w' Hget H200) as (_ & _ & _ & He).
      rewrite He. eexists (Parse (text r) :: _). split; [reflexivity|].
      constructor; [done|].
      destruct (collect _ _).1; [|done].
      apply Forall_bind, Forall_forall. intros entry _.
      unfold compose, print_line.
      destruct (entry.2 !! lit "link"), (entry.2 !! lit "content");
        by repeat constructor.
    + rewrite (scraper_cell_not_200 requests_get datetime_now html_parser
                 k r w' Hget Hne).
      eexists. split; [reflexivity|]. by repeat constructor.
  - unfold scraper_cell, get. step. rewrite Hget. step.
    eexists. split; [reflexivity|]. constructor.
Qed.

End ScraperMore.

(** ** The PRAW cell: depth, placeholders and the loop over the posts *)

Section PrawMore.
Import Praw PrawPosts.

Lemma mul_succ (s : str) (n : Z) : 0 ≤ n → mul s (n + 1) = s ++ mul s n.
Proof.
  intros Hn. unfold mul.
  replace (Z.to_nat (n + 1)) with (S (Z.to_nat n)) by lia. done.
Qed.

Lemma format_line_succ (depth : Z) (body : str) :
  0 ≤ depth → format_line (depth + 1) body = indent (format_line depth body).
Proof.
  intros Hd. unfold format_line, indent.
  by rewrite mul_succ, <- app_assoc.
Qed.

(** Only a placeholder makes the function raise. *)
Lemma get_comments_with_replies_ok (c : Item) depth lines :
  get_comments_with_replies c depth = Ok lines →
  lines = lines_at depth 0 c ∧ ∃ body replies, c = Comment body replies.
Proof.
  destruct c as [body replies|hidden]; [|done].
  rewrite (get_comments_with_replies_lines (Comment body replies) depth 0%nat).
  intros [= <-]. eauto.
Qed.

(** X5: from a depth that is not negative, one more level of starting
    depth puts two spaces in front of every line and changes nothing
    else. *)
Theorem deeper_start_indents_every_line (c : Item) (depth : Z) lines :
  0 ≤ depth →
  get_comments_with_replies c depth = Ok lines →
  get_comments_with_replies c (depth + 1) = Ok (indent <$> lines).
Proof.
  intros Hd Hrun.
  apply get_comments_with_replies_ok in Hrun as (-> & body & replies & ->).
  rewrite (get_comments_with_replies_lines
             (Comment body replies) (depth + 1) 0%nat).
  f_equal. unfold lines_at. rewrite <- list_fmap_compose.
  apply list_fmap_ext. intros _ [l b] _. cbn -[indent format_line].
  rewrite <- format_line_succ by lia. f_equal. lia.
Qed.

(** Below depth 0 the lines do not move: depth -1 and depth 0 write a
    lone comment alike. *)
Example negative_depth_does_not_indent :
  get_comments_with_replies Samples.lone_comment (-1) =
    get_comments_with_replies Samples.lone_comment 0.
Proof. reflexivity. Qed.

Lemma reached_strip_more (c : Item) :
  ∀ level, (c' ← strip_more c; reached level c') = reached level c.
Proof.
  induction c as [body replies IH | hidden _] using Item_nested_ind;
    intros level; [|done].
  destruct replies as [rs|]; cbn [strip_more]; rewrite bind_singleton; [|done].
  cbn [reached]. f_equal.
  specialize (IH rs eq_refl).
  induction IH as [|r rs Hr _ IHrs]; [done|].
  rewrite !bind_cons, bind_app, IHrs. f_equal. apply Hr.
Qed.

(** X6: taking every [MoreComments] out of a comment's tree first, at
    every level, does not change what the function returns for it. *)
Theorem placeholders_leave_no_trace (c c' : Item) (depth : Z) :
  strip_more c = [c'] →
  get_comments_with_replies c' depth = get_comments_with_replies c depth.
Proof.
  intros Hstrip.
  pose proof (reached_strip_more c) as Hreached. rewrite Hstrip in Hreached.
  destruct c as [body replies|hidden]; [|done].
  assert (∃ body' replies', c' = Comment body' replies') as (b' & r' & ->).
  { destruct replies; cbn in Hstrip; injection Hstrip as <-; eauto. }
  rewrite (get_comments_with_replies_lines (Comment b' r') depth 0%nat).
  rewrite (get_comments_with_replies_lines (Comment body replies) depth 0%nat).
  unfold lines_at. f_equal. f_equal.
  specialize (Hreached 0%nat). by rewrite bind_singleton in Hreached.
Qed.

Context {Flair Media : Type}.
Variable replace_more : list Item → list Item.

Abbreviation Submission := (Submission Flair Media).
Abbreviation PostInfo := (PostInfo Flair Media).
Abbreviation praw_cell := (praw_cell Flair Media replace_more).
Abbreviation posts_loop := (posts_loop Flair Media replace_more).
Abbreviation post_body := (post_body Flair Media replace_more).
Abbreviation info_of := (info_of Flair Media replace_more).

Lemma lines_from_at (c : Item) : lines_at 0 0 c = lines_from 0 c.
Proof.
  unfold lines_at, lines_from. apply list_fmap_ext.
  intros _ [l b] _. cbn. f_equal. lia.
Qed.

Lemma extend_all_comments (forest : list Item) :
  all_comments forest →
  ∀ acc, extend_all forest acc = Ok (acc ++ (c ← forest; lines_from 0 c)).
Proof.
  induction 1 as [|c forest Hc _ IH]; intros acc; cbn [extend_all].
  - by rewrite app_nil_r.
  - destruct c as [body replies|]; [|done].
    rewrite (get_comments_with_replies_lines (Comment body replies) 0 0%nat).
    rewrite IH, bind_cons, lines_from_at. by rewrite app_assoc.
Qed.

Lemma extend_all_placeholder (forest : list Item) :
  ¬ all_comments forest →
  ∀ acc, extend_all forest acc = AttributeError "body".
Proof.
  induction forest as [|c forest IH]; intros Hnot acc.
  - destruct Hnot. constructor.
  - destruct c as [body replies|hidden]; [|done]. cbn [extend_all].
    rewrite (get_comments_with_replies_lines (Comment body replies) 0 0%nat).
    apply IH. intros Hall. apply Hnot. by constructor.
Qed.

Lemma posts_loop_stores (posts : list Submission) :
  Forall (λ p, all_comments (replace_more (comments p))) posts →
  ∀ d, posts_loop posts d =
         (Ok (), fold_left (λ d p, PyDict.set d (id p) (info_of p)) posts d).
Proof.
  induction 1 as [|p posts Hp _ IH]; intros d; [done|].
  cbn [PrawPosts.posts_loop fold_left]. unfold PrawPosts.post_body.
  rewrite (extend_all_comments _ Hp []). cbn [app]. apply IH.
Qed.

Lemma get_fold_posts (posts : list Submission) (d : PyDict.t PostInfo) key :
  PyDict.get (fold_left (λ d p, PyDict.set d (id p) (info_of p)) posts d) key =
    match last (List.filter (λ p, bool_decide (id p = key)) posts) with
    | Some p => Some (info_of p)
    | None => PyDict.get d key
    end.
Proof.
  induction posts as [|p posts IH] using rev_ind; [done|].
  rewrite fold_left_app, List.filter_app. cbn.
  destruct (decide (id p = key)) as [<-|Hne].
  - rewrite bool_decide_eq_true_2 by done.
    by rewrite last_snoc, get_set_eq.
  - rewrite bool_decide_eq_false_2 by done.
    by rewrite app_nil_r, get_set_ne.
Qed.

(** X7: when [replace_more] leaves no [MoreComments] at the top of any
    post's forest, the loop over the posts does not raise, and under
    each post id [posts_data] holds the entry of the last post with
    that id: its title, selftext and shortlink, and as comments the
    lines of its top-level comments one tree after the other, each
    from depth 0. *)
Theorem praw_cell_stores_every_post (posts : list Submission) :
  Forall (λ p, all_comments (replace_more (comments p))) posts →
  (praw_cell posts).1 = Ok ()
  ∧ ∀ key,
      PyDict.get (praw_cell posts).2 key =
        info_of <$> last (List.filter (λ p, bool_decide (id p = key)) posts).
Proof.
  intros Hposts. unfold PrawPosts.praw_cell.
  rewrite (posts_loop_stores posts Hposts []). split; [done|].
  intros key. cbn [snd]. rewrite get_fold_posts. by destruct (last _).
Qed.

Lemma posts_loop_app (before rest : list Submission) d :
  posts_loop (before ++ rest) d =
    match posts_loop before d with
    | (Ok _, d') => posts_loop rest d'
    | (AttributeError a, d') => (AttributeError a, d')
    end.
Proof.
  revert d. induction before as [|p before IH]; intros d; [done|].
  cbn [app PrawPosts.posts_loop].
  destruct (post_body p d) as [[[]|a] d']; [apply IH|done].
Qed.

(** X8: when a [MoreComments] is left at the top of a post's forest,
    the loop stops at the first such post with
    [AttributeError] for [body]; nothing is stored for that post or
    for the posts after it, and the entries of the posts before it
    stay. *)
Theorem praw_cell_stops_at_a_placeholder
    (before rest : list Submission) (bad : Submission) :
  Forall (λ p, all_comments (replace_more (comments p))) before →
  ¬ all_comments (replace_more (comments bad)) →
  praw_cell (before ++ bad :: rest) =
    (AttributeError "body", (praw_cell before).2).
Proof.
  intros Hbefore Hbad. unfold PrawPosts.praw_cell.
  rewrite posts_loop_app, (posts_loop_stores before Hbefore []).
  cbn [PrawPosts.posts_loop snd]. unfold PrawPosts.post_body.
  by rewrite (extend_all_placeholder _ Hbad []).
Qed.

End PrawMore.

(** ** The cell that writes the file *)

Section WriterFacts.
Import Praw PrawPosts.

Context {Flair Media : Type}.

Abbreviation Info := (PrawPosts.PostInfo Flair Media).

(** Two texts that agree and whose first lines are [a] and [b] have the
    same first line and the same rest. *)
Lemma cut_at_newline (a b x y : str) :
  one_line a → one_line b →
  a ++ newline :: x = b ++ newline :: y → a = b ∧ x = y.
Proof.
  unfold one_line. revert b.
  induction a as [|c a IH]; intros [|c' b] Ha Hb Heq; cbn in Heq.
  - by injection Heq.
  - injection Heq as <- _. destruct Hb. by left.
  - injection Heq as -> _. destruct Ha. by left.
  - injection Heq as <- Heq.
    destruct (IH b) as [-> ->]; [| |done|done].
    + intros ?. apply Ha. by right.
    + intros ?. apply Hb. by right.
Qed.

Lemma comment_lines_inj (cs1 : list str) :
  ∀ cs2 x y,
    Forall (λ c, one_line c ∧ c ≠ []) cs1 →
    Forall (λ c, one_line c ∧ c ≠ []) cs2 →
    comment_lines cs1 ++ newline :: x = comment_lines cs2 ++ newline :: y →
    cs1 = cs2 ∧ x = y.
Proof.
  unfold comment_lines.
  induction cs1 as [|c1 cs1 IH]; intros [|c2 cs2] x y H1 H2 Heq.
  - by injection Heq.
  - apply Forall_cons in H2 as [[Hline Hne] _].
    destruct c2 as [|h t]; [done|]. cbn in Heq. injection Heq as <- _.
    destruct Hline. by left.
  - apply Forall_cons in H1 as [[Hline Hne] _].
    destruct c1 as [|h t]; [done|]. cbn in Heq. injection Heq as -> _.
    destruct Hline. by left.
  - apply Forall_cons in H1 as [[Hl1 _] H1].
    apply Forall_cons in H2 as [[Hl2 _] H2].
    cbn [fmap list_fmap mjoin list_join] in Heq.
    rewrite <- !app_assoc in Heq. cbn [app] in Heq.
    apply cut_at_newline in Heq as [-> Heq]; [|done|done].
    by destruct (IH cs2 x y H1 H2 Heq) as [-> ->].
Qed.

(** The text written for one post, as one string. *)
Lemma written_cons (e : str * Info) (d : PyDict.t Info) :
  written (e :: d) =
    lit "Post ID: " ++ e.1 ++ newline ::
    lit "Title: " ++ info_title e.2 ++ newline ::
    lit "Link: " ++ info_link e.2 ++ newline ::
    lit "Content: " ++ info_content e.2 ++ newline ::
    match info_comments e.2 with
    | [] => []
    | cs => lit "Comments:" ++ newline :: comment_lines cs
    end ++ newline :: lit "---" ++ newline :: written d.
Proof.
  unfold written at 1. rewrite bind_cons, join_app. fold (written d).
  unfold post_writes, comment_lines.
  destruct (info_comments e.2) as [|c cs]; cbn -[lit];
    repeat first [ rewrite <- app_assoc | rewrite join_app
                 | rewrite app_nil_r | progress cbn [app mjoin list_join] ];
    reflexivity.
Qed.

(** X9: the file tells the posts apart.  When no id, title, link,
    content or comment line contains a newline and no comment line is
    empty, two dictionaries that give the same file have the same
    posts in the same order, with the same ids, titles, links,
    contents and comment lines (flair and media are not written). *)
Theorem written_file_determines_the_posts (d1 d2 : PyDict.t Info) :
  Forall line_safe d1 → Forall line_safe d2 →
  written d1 = written d2 →
  shown <$> d1 = shown <$> d2.
Proof.
  intros H1. revert d2.
  induction H1 as [|e1 d1 He1 _ IH]; intros d2 H2 Heq.
  - destruct d2 as [|e2 d2]; [done|].
    rewrite written_cons in Heq. by vm_compute in Heq.
  - destruct H2 as [|e2 d2 He2 H2].
    + rewrite written_cons in Heq. by vm_compute in Heq.
    + rewrite !written_cons in Heq.
      destruct He1 as (Hid1 & Ht1 & Hl1 & Hc1 & Hcs1).
      destruct He2 as (Hid2 & Ht2 & Hl2 & Hc2 & Hcs2).
      apply app_inv_head in Heq.
      apply cut_at_newline in Heq as [Eid Heq]; [|done|done].
      apply app_inv_head in Heq.
      apply cut_at_newline in Heq as [Et Heq]; [|done|done].
      apply app_inv_head in Heq.
      apply cut_at_newline in Heq as [El Heq]; [|done|done].
      apply app_inv_head in Heq.
      apply cut_at_newline in Heq as [Ec Heq]; [|done|done].
      assert (info_comments e1.2 = info_comments e2.2 ∧
              written d1 = written d2) as [Ecs Hrest].
      { destruct (info_comments e1.2) as [|c1 cs1] eqn:E1,
                 (info_comments e2.2) as [|c2 cs2] eqn:E2.
        - cbn [app] in Heq. by injection Heq.
        - by vm_compute in Heq.
        - by vm_compute in Heq.
        - rewrite <- !app_assoc in Heq. apply app_inv_head in Heq.
          cbn [app] in Heq. injection Heq as Heq.
          apply comment_lines_inj in Heq as [Ecs Heq]; [|done|done].
          split; [done|]. by injection Heq. }
      cbn [fmap list_fmap]. rewrite (IH d2 H2 Hrest).
      unfold shown. by rewrite Eid, Et, El, Ec, Ecs.
Qed.

Variable replace_more : list Item → list Item.

Lemma format_line_safe (depth : Z) (body : str) :
  one_line body →
  one_line (format_line depth body) ∧ format_line depth body ≠ [].
Proof.
  unfold one_line, format_line. intros Hbody. split.
  - assert (Hdash : newline ∉ lit "- ")
      by (apply (bool_decide_eq_true_1 _); by vm_compute).
    assert (Hspaces : newline ∉ lit "  ")
      by (apply (bool_decide_eq_true_1 _); by vm_compute).
    rewrite !elem_of_app. intros [Hin|[Hin|Hin]]; [|done|done].
    unfold mul in Hin. apply list_elem_of_join in Hin as (s & Hin & Hs).
    by apply elem_of_replicate in Hs as [-> _].
  - intros Hnil. apply app_eq_nil in Hnil as [_ Hnil].
    by apply app_eq_nil in Hnil as [Hnil _].
Qed.

Lemma lines_from_safe (c : Item) :
  Forall (λ lb : nat * str, one_line lb.2) (reached 0 c) →
  Forall (λ line, one_line line ∧ line ≠ []) (lines_from 0 c).
Proof.
  unfold lines_from. intros H. apply Forall_fmap.
  eapply Forall_impl; [exact H|]. intros [l b] Hb. cbn in *.
  by apply format_line_safe.
Qed.

Lemma set_Forall_entry {V} (P : str * V → Prop) (d : PyDict.t V) k v :
  P (k, v) → Forall P d → Forall P (PyDict.set d k v).
Proof.
  intros Hv. induction 1 as [|[k0 v0] d H0 Hd IH]; cbn.
  - by constructor.
  - destruct (decide (k = k0)) as [->|]; constructor; auto.
Qed.

(** X10: when [replace_more] leaves no [MoreComments] at the top of
    any forest and no id, title, selftext, shortlink or comment body
    contains a newline, every entry the loop stores has its fields and
    its comment lines each on one line, and no comment line is empty:
    the entries are such that the written file tells them apart. *)
Theorem praw_cell_entries_are_line_safe
    (posts : list (PrawPosts.Submission Flair Media)) :
  Forall (λ p, all_comments (replace_more (comments p))) posts →
  Forall (plain_post Flair Media replace_more) posts →
  Forall line_safe (PrawPosts.praw_cell Flair Media replace_more posts).2.
Proof.
  intros Hall Hplain. unfold PrawPosts.praw_cell.
  rewrite (posts_loop_stores replace_more posts Hall []). cbn [snd].
  assert (Hgen : ∀ d : PyDict.t Info,
            Forall line_safe d →
            Forall line_safe
              (fold_left
                 (λ d p, PyDict.set d (id p)
                           (PrawPosts.info_of Flair Media replace_more p))
                 posts d)).
  { clear Hall. induction Hplain as [|p posts Hp _ IH]; intros d Hd; [done|].
    cbn [fold_left]. apply IH, set_Forall_entry; [|done].
    destruct Hp as (Hid & Ht & Hs & Hl & Hbodies).
    repeat split; [done..|]. cbn.
    apply Forall_bind. eapply Forall_impl; [exact Hbodies|].
    intros c Hc. by apply lines_from_safe. }
  apply Hgen. constructor.
Qed.

End WriterFacts.

(** ** The Selenium cell *)

Section SeleniumFacts.
Import BS4 Selenium.

Context {World : Type}.
Variable chrome : list str → World → Outcome () * World.
Variable driver_get : str → World → Outcome () * World.
Variable time_sleep : Z → World → World.
Variable execute_script : str → World → Outcome () * World.
Variable page_source : World → Outcome str * World.
Variable driver_quit : World → Outcome () * World.
Variable datetime_now : World → Z * World.
Variable html_parser : str → list Node.
Variable prettify : Node → str.
Variable strptime : str → Outcome Z.

Abbreviation SKernel := (Selenium.Kernel World).
Abbreviation selenium_cell :=
  (Selenium.selenium_cell World chrome driver_get time_sleep execute_script
     page_source driver_quit datetime_now html_parser prettify strptime).
Abbreviation browse :=
  (Selenium.browse World chrome driver_get time_sleep execute_script
     page_source driver_quit html_parser prettify).
Abbreviation left_open_or_closed :=
  (Selenium.after World chrome driver_get time_sleep execute_script
     page_source driver_quit datetime_now html_parser prettify strptime).
Abbreviation scroll := (Selenium.scroll World time_sleep execute_script).
Abbreviation s_article_body := (Selenium.article_body World strptime).
Abbreviation s_print_post := (Selenium.print_post World).
Abbreviation s_for_each := (Selenium.for_each World).
Abbreviation s_collect := (Selenium.collect strptime).
Abbreviation s_collect_one := (Selenium.collect_one strptime).
Abbreviation shows :=
  (browser_shows World chrome driver_get execute_script page_source
     driver_quit).

Ltac go :=
  lazy beta iota zeta
    delta [mbind Run_bind mret Run_ret fail Selenium.lift assign emit call
           sleep Selenium.now Selenium.field Selenium.load_posts
           of_outcome from_option];
  cbn [world globals events fst snd].

Lemma s_bind_run {A B} (m : Cell World A) (f : A → Cell World B) (k : SKernel) :
  (m ≫= f) k =
    match m k with
    | (Done a, k') => f a k'
    | (Fails r, k') => (Fails r, k')
    end.
Proof. reflexivity. Qed.

Lemma s_article_body_collect_one (t : Z) (article : Node) (k : SKernel) d :
  globals k !! "posts_details" = Some (VPosts d) →
  (s_article_body t article k).1 = (s_collect_one t article d).1
  ∧ globals (s_article_body t article k).2 !! "posts_details" =
      Some (VPosts (s_collect_one t article d).2)
  ∧ world (s_article_body t article k).2 = world k
  ∧ events (s_article_body t article k).2 = events k.
Proof.
  intros Hd. unfold Selenium.article_body, Selenium.collect_one, getitem,
    Scraper.content_stripped.
  destruct (find article (lit "a") Scraper.slot_title) as [title_tag|]; go;
    [|by rewrite !lookup_insert_ne by done].
  destruct (attr title_tag (lit "href")) as [link|]; go;
    [|by rewrite !lookup_insert_ne by done].
  destruct (find article (lit "faceplate-timeago") None) as [timestamp_tag|];
    go; [|by rewrite !lookup_insert_ne by done].
  destruct (attr timestamp_tag (lit "ts")) as [ts|]; go;
    [|by rewrite !lookup_insert_ne by done].
  destruct (strptime ts) as [post_datetime|e]; go;
    [|by rewrite !lookup_insert_ne by done].
  destruct (t - post_datetime <=? one_day); go.
  - rewrite !lookup_insert_ne, Hd by done. go. by rewrite lookup_insert_eq.
  - by rewrite !lookup_insert_ne by done.
Qed.

Lemma s_for_each_collect (t : Z) (articles : list Node) :
  ∀ (k : SKernel) d,
    globals k !! "posts_details" = Some (VPosts d) →
    (s_for_each articles (s_article_body t) k).1 = (s_collect t articles d).1
    ∧ globals (s_for_each articles (s_article_body t) k).2 !! "posts_details" =
        Some (VPosts (s_collect t articles d).2)
    ∧ world (s_for_each articles (s_article_body t) k).2 = world k
    ∧ events (s_for_each articles (s_article_body t) k).2 = events k.
Proof.
  induction articles as [|article rest IH]; intros k d Hd; [done|].
  destruct (s_article_body_collect_one t article k d Hd) as (Ho & Hg & Hw & He).
  cbn [Selenium.for_each Selenium.collect]. rewrite s_bind_run.
  destruct (s_article_body t article k) as [[[]|e] k1]; cbn in Ho, Hg, Hw, He;
    destruct (s_collect_one t article d) as [[[]|e'] d1]; cbn in Ho, Hg;
    simplify_eq.
  - destruct (IH k1 d1 Hg) as (? & ? & ? & ?). repeat split; congruence.
  - by repeat split.
Qed.

Lemma s_details_of_link link content_text :
  Selenium.details_of link content_text !! lit "link" = Some link.
Proof. unfold Selenium.details_of. by rewrite lookup_insert_eq. Qed.

Lemma s_details_of_content link content_text :
  Selenium.details_of link content_text !! lit "content" = Some content_text.
Proof.
  unfold Selenium.details_of.
  rewrite lookup_insert_ne by (vm_compute; discriminate).
  by rewrite lookup_singleton_eq.
Qed.

Lemma s_collect_printable (t : Z) (articles : list Node) :
  ∀ d, Forall Selenium.printable d → Forall Selenium.printable (s_collect t articles d).2.
Proof.
  induction articles as [|article rest IH]; intros d Hd; [done|].
  cbn [Selenium.collect]. unfold Selenium.collect_one, getitem.
  destruct (find article (lit "a") Scraper.slot_title) as [title_tag|];
    [|by apply IH].
  destruct (attr title_tag (lit "href")) as [link|]; [|done].
  destruct (find article (lit "faceplate-timeago") None) as [timestamp_tag|];
    [|by apply IH].
  destruct (attr timestamp_tag (lit "ts")) as [ts|]; [|done].
  destruct (strptime ts) as [post_datetime|e]; [|done].
  destruct (t - post_datetime <=? one_day); [|by apply IH].
  apply IH, set_Forall; [|done]. intros k'. by eexists _, _.
Qed.

Lemma s_print_post_run title link content_text (k : SKernel) :
  s_print_post (title, Selenium.details_of link content_text) k =
    (Done (),
     {| world := world k;
        globals :=
          <["details" := VDetails (Selenium.details_of link content_text)]>
            (<["title" := VStr title]> (globals k));
        events :=
          events k ++
          Selenium.print_line (title, Selenium.details_of link content_text) |}).
Proof.
  unfold Selenium.print_post, Selenium.print_line. cbn [fst snd]. go.
  rewrite s_details_of_link. go. rewrite s_details_of_content. by go.
Qed.

Lemma s_for_each_print_post (d : list (str * gmap str str)) :
  ∀ k : SKernel,
    Forall Selenium.printable d →
    (s_for_each d s_print_post k).1 = Done ()
    ∧ globals (s_for_each d s_print_post k).2 !! "posts_details" =
        globals k !! "posts_details"
    ∧ globals (s_for_each d s_print_post k).2 !! "now" = globals k !! "now"
    ∧ events (s_for_each d s_print_post k).2 =
        events k ++ (d ≫= Selenium.print_line).
Proof.
  induction d as [|[title details] d IH]; intros k Hd.
  - cbn. by rewrite app_nil_r.
  - apply Forall_cons in Hd as [(link & ct & Hdet) Hd].
    cbn [snd] in Hdet. subst details.
    cbn [Selenium.for_each]. rewrite s_bind_run, s_print_post_run.
    match goal with |- context [s_for_each d s_print_post ?k1] =>
      destruct (IH k1 Hd) as (Ho & Hg & Hn & He) end.
    cbn [world globals events] in Hg, Hn, He.
    rewrite Ho, Hg, Hn, He. repeat split.
    + by rewrite !lookup_insert_ne by done.
    + by rewrite !lookup_insert_ne by done.
    + by rewrite bind_cons, <- app_assoc.
Qed.

Lemma scroll_run (i : nat) (k : SKernel) :
  (execute_script scroll_js (world k)).1 = Returns () →
  scroll i k =
    (Done (),
     {| world := time_sleep 2 (execute_script scroll_js (world k)).2;
        globals := <["_" := VInt (Z.of_nat i)]> (globals k);
        events := events k ++ [Script scroll_js; Sleep 2] |}).
Proof.
  intros Hscript. unfold Selenium.scroll. go.
  destruct (execute_script scroll_js (world k)) as [o w]. cbn in Hscript.
  subst o. go. by rewrite <- app_assoc.
Qed.

(** The ten scrolls, when the script call returns. *)
Lemma scrolls_run (turns : list nat) :
  (∀ js w, (execute_script js w).1 = Returns ()) →
  ∀ k : SKernel,
    (s_for_each turns scroll k).1 = Done ()
    ∧ events (s_for_each turns scroll k).2 =
        events k ++ (_ ← turns; [Script scroll_js; Sleep 2])
    ∧ (∀ name, name ≠ "_" →
         globals (s_for_each turns scroll k).2 !! name = globals k !! name).
Proof.
  intros Hscript. induction turns as [|i turns IH]; intros k.
  - cbn. by rewrite app_nil_r.
  - cbn [Selenium.for_each]. rewrite s_bind_run, scroll_run by done.
    match goal with |- context [s_for_each turns scroll ?k1] =>
      destruct (IH k1) as (Ho & He & Hg) end.
    cbn [world globals events] in He, Hg.
    rewrite Ho, He. repeat split.
    + rewrite bind_cons. by rewrite <- !app_assoc.
    + intros name Hname. rewrite Hg by done. by rewrite lookup_insert_ne.
Qed.

Ltac returns H :=
  match goal with
  | |- context [let (_, _) := ?f ?w in _] =>
      let o := fresh "o" in
      let w' := fresh "w" in
      let E := fresh "E" in
      let Ho := fresh "Ho" in
      pose proof (H w) as Ho;
      destruct (f w) as [o w'] eqn:E; cbn [fst] in Ho; subst o; go
  end.

(** The cell up to [driver.quit()], for a browser that shows
    [markup]. *)
Lemma browse_run (markup : str) (k : SKernel) :
  shows markup →
  match head (find_all_in (html_parser markup) (lit "title") None) with
  | Some title =>
      (browse k).1 = Done (html_parser markup)
      ∧ events (browse k).2 =
          events k ++ session_start ++ [Parse markup] ++
          reports prettify (html_parser markup) title ++ [Quit]
  | None =>
      (browse k).1 = Fails no_title
      ∧ events (browse k).2 = events k ++ session_start ++ [Parse markup]
  end
  ∧ globals (browse k).2 !! "posts_details" = globals k !! "posts_details".
Proof.
  intros (Hchrome & Hget & Hscript & Hsource & Hquit).
  unfold Selenium.browse, Selenium.BeautifulSoup. go.
  returns (Hchrome [lit "--headless"]).
  returns (Hget Scraper.url_hot).
  match goal with |- context [s_for_each (seq 0 10) scroll ?k1] =>
    destruct (scrolls_run (seq 0 10) Hscript k1) as (Ho & He & Hg);
    destruct (s_for_each (seq 0 10) scroll k1) as [[[]|r] k2] end;
    cbn [fst snd world globals events] in Ho, He, Hg; [|done]. go.
  returns Hsource.
  unfold reports.
  destruct (head (find_all_in (html_parser markup) (lit "title") None))
    as [title|]; go.
  - destruct (find_all_in (html_parser markup) (lit "article") None)
      as [|first posts]; go; returns Hquit.
    + rewrite !lookup_insert_ne, Hg, !lookup_insert_ne by done.
      rewrite He. unfold session_start.
      repeat first [ rewrite <- app_assoc | progress cbn [app] ]. done.
    + rewrite !lookup_insert_ne, Hg, !lookup_insert_ne by done.
      rewrite He. unfold session_start.
      repeat first [ rewrite <- app_assoc | progress cbn [app] ]. done.
  - rewrite !lookup_insert_ne, Hg, !lookup_insert_ne by done.
    rewrite He. unfold session_start.
    repeat first [ rewrite <- app_assoc | progress cbn [app] ]. done.
Qed.

(** The whole cell on a page with a title. *)
Lemma selenium_cell_run (markup : str) (title : Node) (k : SKernel) :
  shows markup →
  head (find_all_in (html_parser markup) (lit "title") None) = Some title →
  ∃ w t,
    (datetime_now w).1 = t ∧
    (selenium_cell k).1 =
      (s_collect t (find_all_in (html_parser markup) (lit "article") None) []).1
    ∧ globals (selenium_cell k).2 !! "posts_details" =
        Some (VPosts
                (s_collect t
                   (find_all_in (html_parser markup) (lit "article") None)
                   []).2)
    ∧ globals (selenium_cell k).2 !! "now" = Some (VDatetime t)
    ∧ events (selenium_cell k).2 =
        events k ++ session_start ++ [Parse markup] ++
        reports prettify (html_parser markup) title ++ [Quit] ++
        match (s_collect t
                 (find_all_in (html_parser markup) (lit "article") None)
                 []).1 with
        | Done _ =>
            (s_collect t
               (find_all_in (html_parser markup) (lit "article") None) []).2
              ≫= Selenium.print_line
        | Fails _ => []
        end.
Proof.
  intros Hshows Htitle.
  destruct (browse_run markup k Hshows) as [Hbrowse _].
  rewrite Htitle in Hbrowse. destruct Hbrowse as [Ho He].
  unfold Selenium.selenium_cell. rewrite s_bind_run.
  destruct (browse k) as [[soup|r] k1]; cbn [fst snd] in Ho, He; [|done].
  injection Ho as ->. go.
  destruct (datetime_now (world k1)) as [t w] eqn:Hnow. go.
  exists (world k1), t. split; [by rewrite Hnow|].
  set (articles := find_all_in (html_parser markup) (lit "article") None).
  match goal with |- context [s_for_each articles (s_article_body t) ?k2] =>
    set (k0 := k2) end.
  destruct (s_for_each_collect t articles k0 [])
    as (Hlo & Hlg & _ & Hle); [by unfold k0; cbn; rewrite lookup_insert_eq|].
  pose proof (s_collect_printable t articles [] (Forall_nil_2 _)) as Hp.
  assert (Hkeep : globals (s_for_each articles (s_article_body t) k0).2
                    !! "now" = Some (VDatetime t)).
  { clear Hlo Hlg Hle Hp.
    assert (Hk0 : globals k0 !! "now" = Some (VDatetime t)).
    { unfold k0. cbn. rewrite lookup_insert_ne by done.
      by rewrite lookup_insert_eq. }
    clearbody k0. revert k0 Hk0.
    induction articles as [|a rest IH]; intros k0 Hk0; [done|].
    cbn [Selenium.for_each]. rewrite s_bind_run.
    assert (Hbody : globals (s_article_body t a k0).2 !! "now" =
                    Some (VDatetime t)).
    { unfold Selenium.article_body, getitem.
      destruct (find a (lit "a") Scraper.slot_title) as [title_tag|]; go;
        [|by rewrite !lookup_insert_ne by done].
      destruct (attr title_tag (lit "href")) as [link|]; go;
        [|by rewrite !lookup_insert_ne by done].
      destruct (find a (lit "faceplate-timeago") None) as [timestamp_tag|];
        go; [|by rewrite !lookup_insert_ne by done].
      destruct (attr timestamp_tag (lit "ts")) as [ts|]; go;
        [|by rewrite !lookup_insert_ne by done].
      destruct (strptime ts) as [post_datetime|e]; go;
        [|by rewrite !lookup_insert_ne by done].
      destruct (t - post_datetime <=? one_day); go;
        [|by rewrite !lookup_insert_ne by done].
      destruct (_ !! "posts_details") as [[]|]; go;
        by rewrite ?lookup_insert_ne by done. }
    destruct (s_article_body t a k0) as [[[]|r] k1']; cbn [snd] in Hbody;
      [by apply IH|done]. }
  destruct (s_for_each articles (s_article_body t) k0) as [[[]|r] k2];
    cbn [fst snd] in Hlo, Hlg, Hle, Hkeep; rewrite <- Hlo; go.
  - rewrite Hlg. go.
    destruct (s_for_each_print_post (s_collect t articles []).2 k2 Hp)
      as (Ho' & Hg' & Hn' & He').
    rewrite Ho', Hg', Hn', He', Hlg, Hkeep, Hle. unfold k0. cbn [events].
    rewrite He. repeat split; by rewrite <- ?app_assoc.
  - rewrite Hlg, Hkeep, Hle. unfold k0. cbn [events]. rewrite He.
    repeat split; by rewrite <- ?app_assoc, ?app_nil_r.
Qed.

Lemma session_start_keeps_browser (markup : str) :
  Quit ∉ (session_start ++ [Parse markup]).
Proof.
  intros Hin. unfold session_start in Hin.
  cbn [seq mbind list_bind app] in Hin.
  repeat (apply elem_of_cons in Hin as [Hin|Hin]; [discriminate|]).
  by apply elem_of_nil in Hin.
Qed.

(** X11: on a page without a [title] element the cell raises
    [AttributeError] at [soup.title.text], after the browser has
    started, loaded the page and scrolled ten times, and before
    [driver.quit()]: the browser is never closed, and
    [posts_details] is left as it was. *)
Theorem missing_title_leaves_the_browser_open (markup : str) (k : SKernel) :
  shows markup →
  head (find_all_in (html_parser markup) (lit "title") None) = None →
  (selenium_cell k).1 = Fails no_title
  ∧ events (left_open_or_closed k) =
      events k ++ session_start ++ [Parse markup]
  ∧ (Quit ∉ session_start ++ [Parse markup])
  ∧ globals (left_open_or_closed k) !! "posts_details" =
      globals k !! "posts_details".
Proof.
  intros Hshows Htitle.
  destruct (browse_run markup k Hshows) as [Hbrowse Hposts].
  rewrite Htitle in Hbrowse. destruct Hbrowse as [Ho He].
  unfold Selenium.after, Selenium.selenium_cell. rewrite s_bind_run.
  destruct (browse k) as [[soup|r] k1]; cbn [fst snd] in Ho, He, Hposts;
    [done|].
  injection Ho as ->. cbn [fst snd].
  repeat split; [done| |done]. apply session_start_keeps_browser.
Qed.


Lemma s_collect_stores_records (t : Z) (articles : list Node) :
  Forall (readable strptime) articles →
  ∀ d,
    s_collect t articles d =
      (Done (),
       fold_left (λ d e, PyDict.set d e.1 e.2)
                 (omap (recent_record strptime t) articles) d).
Proof.
  induction 1 as [|a rest Hread _ IH]; intros d; [done|].
  cbn [Selenium.collect omap list_omap].
  unfold Selenium.collect_one, recent_record, getitem.
  destruct (find a (lit "a") Scraper.slot_title) as [title_tag|] eqn:Hfind;
    cbn [mbind option_bind]; [|apply IH].
  destruct (Hread title_tag Hfind) as [[link Hlink] Hstamp].
  rewrite Hlink. cbn [mbind option_bind]. unfold posted_at.
  destruct (find a (lit "faceplate-timeago") None) as [timestamp_tag|];
    cbn [mbind option_bind]; [|apply IH].
  destruct (Hstamp timestamp_tag eq_refl) as (ts & posted & Hts & Hparse).
  rewrite Hts. cbn [mbind option_bind]. rewrite Hparse.
  cbn [mbind option_bind].
  destruct (t - posted <=? one_day); apply IH.
Qed.

(** X13: on a page with a title whose articles can all be read (every
    title link has an [href]; where an article with a title link has
    a [faceplate-timeago] tag, the tag has a [ts] that [strptime]
    accepts), the cell ends without raising, and under each stripped
    title [posts_details] holds the record of the last article with
    that title among those that have a time, no more than a day
    before the value bound to [now]; an article without a time tag is
    passed over, one dated after [now] counts as recent.  The content
    of a record is the stripped text, newlines kept. *)
Theorem selenium_keeps_the_posts_of_the_last_day
    (markup : str) (title : Node) (k : SKernel) :
  shows markup →
  head (find_all_in (html_parser markup) (lit "title") None) = Some title →
  Forall (readable strptime)
         (find_all_in (html_parser markup) (lit "article") None) →
  (selenium_cell k).1 = Done ()
  ∧ ∃ t,
      globals (left_open_or_closed k) !! "now" = Some (VDatetime t)
      ∧ ∀ key,
          PyDict.get (Selenium.posts_of (left_open_or_closed k)) key =
            snd <$> last (List.filter (λ e, bool_decide (e.1 = key))
                            (omap (recent_record strptime t)
                               (find_all_in (html_parser markup)
                                            (lit "article") None))).
Proof.
  intros Hshows Htitle Hread.
  destruct (selenium_cell_run markup title k Hshows Htitle)
    as (w & t & _ & Ho & Hg & Hn & _).
  rewrite (s_collect_stores_records t _ Hread []) in Ho, Hg.
  split; [done|]. exists t. split; [done|]. intros key.
  unfold Selenium.posts_of, Selenium.after. rewrite Hg. cbn [snd].
  rewrite get_fold_set. by destruct (last _).
Qed.

End SeleniumFacts.
(** ** The two cells on one page *)

Section TwoCells.
Import BS4.

Lemma set_fmap {V W} (f : V → W) (d : PyDict.t V) k v :
  PyDict.set (prod_map id f <$> d) k (f v) =
    prod_map id f <$> PyDict.set d k v.
Proof.
  induction d as [|[k0 v0] d IH]; [done|]. cbn.
  destruct (decide (k = k0)); cbn; [done|]. by rewrite IH.
Qed.

Lemma squeezed_details link content_text :
  Selenium.squeezed (Selenium.details_of link content_text) =
    Scraper.details_of link content_text.
Proof.
  unfold Selenium.squeezed.
  by rewrite s_details_of_link, s_details_of_content.
Qed.

Lemma collect_squeezed (strptime : str → Outcome Z) (t : Z)
    (articles : list Node) :
  Forall (Selenium.readable strptime) articles →
  Forall (Selenium.timed strptime) articles →
  Forall (λ a, ∀ posted, Selenium.posted_at strptime a = Some posted →
                         t - posted ≤ Selenium.one_day) articles →
  ∀ d,
    (Scraper.collect articles (prod_map id Selenium.squeezed <$> d)).2 =
      prod_map id Selenium.squeezed <$> (Selenium.collect strptime t articles d).2.
Proof.
  intros Hread.
  induction Hread as [|a rest Ha _ IH]; intros Htimed Hrecent d; [done|].
  apply Forall_cons in Htimed as [Htime Htimed].
  apply Forall_cons in Hrecent as [Hnew Hrecent].
  cbn [Scraper.collect Selenium.collect].
  unfold Scraper.collect_one, Selenium.collect_one, getitem.
  destruct (find a (lit "a") Scraper.slot_title) as [title_tag|] eqn:Hfind;
    [|by apply IH].
  destruct (Ha title_tag Hfind) as [[link Hlink] _].
  destruct (Htime title_tag Hfind) as [posted Hposted].
  rewrite Hlink. specialize (Hnew posted Hposted).
  unfold Selenium.posted_at in Hposted.
  destruct (find a (lit "faceplate-timeago") None) as [timestamp_tag|];
    cbn [mbind option_bind] in Hposted; [|done].
  destruct (attr timestamp_tag (lit "ts")) as [stamp|];
    cbn [mbind option_bind] in Hposted; [|done].
  destruct (strptime stamp) as [t'|]; [|done]. injection Hposted as ->.
  rewrite (proj2 (Z.leb_le _ _) Hnew).
  fold (Scraper.content_stripped a).
  rewrite <- squeezed_details, set_fmap. by apply IH.
Qed.

(** X14: the two cells on the same page.  When the page has a title,
    every article can be read, every article with a title link has a
    time, and none is older than a day at any reading of the clock,
    the first cell (answered with status 200)
    and the Selenium cell store the same titles in the same order with
    the same links; the first cell's content is the Selenium cell's
    with the newlines taken out. *)
Theorem both_cells_store_the_same_posts
    (W1 W2 : Type)
    (requests_get : str → gmap str str → W1 → Outcome Scraper.Response * W1)
    (clock1 : W1 → Z * W1)
    (chrome : list str → W2 → Outcome () * W2)
    (driver_get : str → W2 → Outcome () * W2)
    (time_sleep : Z → W2 → W2)
    (execute_script : str → W2 → Outcome () * W2)
    (page_source : W2 → Outcome str * W2)
    (driver_quit : W2 → Outcome () * W2)
    (clock2 : W2 → Z * W2)
    (html_parser : str → list Node)
    (prettify : Node → str)
    (strptime : str → Outcome Z)
    (k1 : Scraper.Kernel W1) (k2 : Selenium.Kernel W2)
    (r : Scraper.Response) (w' : W1) (title : Node) :
  requests_get Scraper.url_hot Scraper.headers_sent (Scraper.world k1)
    = (Returns r, w') →
  Scraper.status_code r = 200 →
  Selenium.browser_shows W2 chrome driver_get execute_script page_source
    driver_quit (Scraper.text r) →
  head (find_all_in (html_parser (Scraper.text r)) (lit "title") None)
    = Some title →
  Forall (Selenium.readable strptime)
         (find_all_in (html_parser (Scraper.text r)) (lit "article") None) →
  Forall (Selenium.timed strptime)
         (find_all_in (html_parser (Scraper.text r)) (lit "article") None) →
  Forall (λ a, ∀ posted w,
            Selenium.posted_at strptime a = Some posted →
            (clock2 w).1 - posted ≤ Selenium.one_day)
         (find_all_in (html_parser (Scraper.text r)) (lit "article") None) →
  Scraper.posts_of (Scraper.after W1 requests_get clock1 html_parser k1) =
    prod_map id Selenium.squeezed <$>
      Selenium.posts_of
        (Selenium.after W2 chrome driver_get time_sleep execute_script
           page_source driver_quit clock2 html_parser prettify strptime k2).
Proof.
  intros Hget H200 Hshows Htitle Hread Htimed Hrecent.
  destruct (scraper_cell_200 requests_get clock1 html_parser k1 r w' Hget H200)
    as (_ & Hg1 & _ & _).
  destruct (selenium_cell_run chrome driver_get time_sleep execute_script
              page_source driver_quit clock2 html_parser prettify strptime
              (Scraper.text r) title k2 Hshows Htitle)
    as (w & t & Hclock & _ & Hg2 & _ & _).
  unfold Scraper.after, Scraper.posts_of, Selenium.after, Selenium.posts_of.
  rewrite Hg1, Hg2.
  rewrite <- (collect_squeezed strptime t _ Hread Htimed); [done|].
  eapply Forall_impl; [exact Hrecent|]. intros a Ha posted Hposted.
  rewrite <- Hclock. by apply Ha.
Qed.

End TwoCells.

(** ** The further facts on concrete inputs *)

Section MoreWitnesses.
Import BS4 Samples MoreSamples.

Lemma scraper_fetch_error_propagates_witness :
  (Scraper.scraper_cell Z refuse tick page_parser fresh_kernel).1 =
    Raises (LibraryError (lit "ConnectionError")).
Proof.
  rewrite (scraper_fetch_error_propagates refuse tick page_parser
             fresh_kernel (LibraryError (lit "ConnectionError")) 1).
  - reflexivity.
  - reflexivity.
Defined.

Lemma mixed_links_have_href : Scraper.links_have_href [page_article].
Proof.
  repeat constructor. intros title_tag Hfind.
  vm_compute in Hfind. injection Hfind as <-. by eexists.
Defined.

Lemma scraper_missing_href_keeps_earlier_records_witness :
  (Scraper.scraper_cell Z (answer page_response) tick mixed_parser
     fresh_kernel).1 = Raises (KeyError (lit "href"))
  ∧ Scraper.posts_of
      (Scraper.after Z (answer page_response) tick mixed_parser fresh_kernel) =
      [(lit "New model",
        {[ lit "link" := lit "/r/LocalLLaMA/comments/1";
           lit "content" := lit "line oneline two" ]})].
Proof.
  split.
  - apply (scraper_missing_href_keeps_earlier_records
             (answer page_response) tick mixed_parser fresh_kernel
             page_response 1 [page_article]
             [twin_article "/late" "late text"] bare_article
             (Tag (lit "a") {[ lit "slot" := lit "title" ]}
                  [NavigableString (lit "No link")])).
    + reflexivity.
    + reflexivity.
    + reflexivity.
    + exact mixed_links_have_href.
    + by vm_compute.
    + by vm_compute.
  - by vm_compute.
Defined.

Lemma scraper_records_are_tidy_witness :
  Forall ScraperOrder.tidy
    (Scraper.posts_of
       (Scraper.after Z (answer page_response) tick twin_parser fresh_kernel)).
Proof.
  apply (scraper_records_are_tidy (answer page_response) tick twin_parser
           fresh_kernel page_response 1).
  - reflexivity.
  - reflexivity.
Defined.

Lemma twin_links_have_href :
  Scraper.links_have_href
    (find_all_in (twin_parser (Scraper.text page_response)) (lit "article") None).
Proof.
  assert (find_all_in (twin_parser (Scraper.text page_response))
            (lit "article") None =
          [twin_article "/first" "first text";
           twin_article "/second" "second text"]) as -> by (by vm_compute).
  repeat constructor; intros title_tag Hfind;
    vm_compute in Hfind; injection Hfind as <-; by eexists.
Defined.

Lemma scraper_prints_records_in_first_seen_order_witness :
  PyDict.keys
    (Scraper.posts_of
       (Scraper.after Z (answer page_response) tick twin_parser fresh_kernel)) =
    ScraperOrder.first_seen
      (ScraperOrder.titles
         (find_all_in (twin_parser (Scraper.text page_response))
                      (lit "article") None)).
Proof.
  apply (scraper_prints_records_in_first_seen_order
           (answer page_response) tick twin_parser fresh_kernel page_response 1).
  - reflexivity.
  - reflexivity.
  - exact twin_links_have_href.
Defined.

Lemma deeper_start_indents_every_line_witness :
  Praw.get_comments_with_replies thread (0 + 1) =
    Praw.Ok (PrawPosts.indent <$>
               [lit "- top"; lit "  - first reply"; lit "  - second reply";
                lit "    - nested"]).
Proof.
  apply (deeper_start_indents_every_line thread 0).
  - lia.
  - reflexivity.
Defined.

Lemma placeholders_leave_no_trace_witness :
  Praw.get_comments_with_replies loaded_thread 0 =
    Praw.get_comments_with_replies thread 0.
Proof.
  apply (placeholders_leave_no_trace thread loaded_thread 0).
  reflexivity.
Defined.

Lemma first_post_has_comments_on_top :
  Forall (λ p : PrawPosts.Submission () (),
            PrawPosts.all_comments (drop_placeholders (PrawPosts.comments p)))
         [first_post; second_post].
Proof. repeat constructor. Defined.

Lemma praw_cell_stores_every_post_witness :
  (PrawPosts.praw_cell () () drop_placeholders [first_post; second_post]).1 =
    Praw.Ok ().
Proof.
  apply (praw_cell_stores_every_post drop_placeholders [first_post; second_post]).
  exact first_post_has_comments_on_top.
Defined.

Lemma praw_cell_stops_at_a_placeholder_witness :
  PrawPosts.praw_cell () () leave_forest [first_post; second_post; first_post] =
    (Praw.AttributeError "body",
     (PrawPosts.praw_cell () () leave_forest [first_post]).2).
Proof.
  apply (praw_cell_stops_at_a_placeholder leave_forest
           [first_post] [first_post] second_post).
  - repeat constructor.
  - intros Hall. apply Forall_cons in Hall as [_ Hall].
    apply Forall_cons in Hall as [Hmore _]. exact Hmore.
Defined.

Lemma sample_entries_line_safe (flair : nat) :
  Forall PrawPosts.line_safe [entry_with_flair flair].
Proof.
  assert (Hline : ∀ s : str, bool_decide (newline ∉ s) = true →
                             PrawPosts.one_line s)
    by (intros s; apply bool_decide_eq_true_1).
  repeat constructor; try (apply Hline; by vm_compute); by vm_compute.
Defined.

Lemma written_file_determines_the_posts_witness :
  PrawPosts.shown <$> [entry_with_flair 1] =
    PrawPosts.shown <$> [entry_with_flair 2].
Proof.
  apply (written_file_determines_the_posts
           [entry_with_flair 1] [entry_with_flair 2]).
  - exact (sample_entries_line_safe 1).
  - exact (sample_entries_line_safe 2).
  - reflexivity.
Defined.

Lemma sample_posts_are_plain :
  Forall (PrawPosts.plain_post () () drop_placeholders)
         [first_post; second_post].
Proof.
  assert (Hline : ∀ s : str, bool_decide (newline ∉ s) = true →
                             PrawPosts.one_line s)
    by (intros s; apply bool_decide_eq_true_1).
  repeat constructor; apply Hline; by vm_compute.
Defined.

Lemma praw_cell_entries_are_line_safe_witness :
  Forall PrawPosts.line_safe
    (PrawPosts.praw_cell () () drop_placeholders [first_post; second_post]).2.
Proof.
  apply (praw_cell_entries_are_line_safe drop_placeholders
           [first_post; second_post]).
  - exact first_post_has_comments_on_top.
  - exact sample_posts_are_plain.
Defined.

Lemma sample_browser_shows (markup : str) :
  Selenium.browser_shows Z sample_chrome sample_driver_get sample_script
    (returns markup) sample_quit markup.
Proof. repeat split. Defined.

Lemma missing_title_leaves_the_browser_open_witness :
  (Selenium.selenium_cell Z sample_chrome sample_driver_get sample_sleep
     sample_script (returns page_markup) sample_quit tick page_parser
     sample_prettify sample_strptime fresh_browser_kernel).1 =
    Selenium.Fails Selenium.no_title.
Proof.
  apply (missing_title_leaves_the_browser_open
           sample_chrome sample_driver_get sample_sleep sample_script
           (returns page_markup) sample_quit tick page_parser
           sample_prettify sample_strptime page_markup fresh_browser_kernel).
  - exact (sample_browser_shows page_markup).
  - by vm_compute.
Defined.



Lemma timed_page_readable :
  Forall (Selenium.readable sample_strptime)
         (find_all_in (timed_parser page_markup) (lit "article") None).
Proof.
  assert (find_all_in (timed_parser page_markup) (lit "article") None =
          [timed_article]) as -> by (by vm_compute).
  apply Forall_cons. split; [|constructor]. intros title_tag Hfind.
  vm_compute in Hfind. injection Hfind as <-.
  split; [eexists; by vm_compute|]. intros timestamp_tag Hstamp.
  vm_compute in Hstamp. injection Hstamp as <-.
  eexists _, _. split; by vm_compute.
Defined.

Lemma timed_page_timed :
  Forall (Selenium.timed sample_strptime)
         (find_all_in (timed_parser page_markup) (lit "article") None).
Proof.
  assert (find_all_in (timed_parser page_markup) (lit "article") None =
          [timed_article]) as -> by (by vm_compute).
  apply Forall_cons. split; [|constructor]. intros title_tag _.
  eexists. by vm_compute.
Defined.

Lemma selenium_keeps_the_posts_of_the_last_day_witness :
  (Selenium.selenium_cell Z sample_chrome sample_driver_get sample_sleep
     sample_script (returns page_markup) sample_quit tick timed_parser
     sample_prettify sample_strptime fresh_browser_kernel).1 =
    Selenium.Done ().
Proof.
  apply (selenium_keeps_the_posts_of_the_last_day
           sample_chrome sample_driver_get sample_sleep sample_script
           (returns page_markup) sample_quit tick timed_parser
           sample_prettify sample_strptime page_markup page_title
           fresh_browser_kernel).
  - exact (sample_browser_shows page_markup).
  - by vm_compute.
  - exact timed_page_readable.
Defined.

(** On the timed page the Selenium cell keeps the newline that the
    first cell takes out. *)
Example timed_page_records :
  Selenium.posts_of
    (Selenium.after Z sample_chrome sample_driver_get sample_sleep
       sample_script (returns page_markup) sample_quit tick timed_parser
       sample_prettify sample_strptime fresh_browser_kernel) =
    [(lit "New model",
      {[ lit "link" := lit "/r/LocalLLaMA/comments/1";
         lit "content" := lit "line one" ++ [newline] ++ lit "line two" ]})].
Proof. by vm_compute. Qed.

Lemma timed_page_recent :
  Forall (λ a, ∀ posted (w : Z),
            Selenium.posted_at sample_strptime a = Some posted →
            (frozen_clock w).1 - posted ≤ Selenium.one_day)
         (find_all_in (timed_parser (Scraper.text timed_response))
                      (lit "article") None).
Proof.
  assert (find_all_in (timed_parser (Scraper.text timed_response))
            (lit "article") None = [timed_article]) as -> by (by vm_compute).
  apply Forall_cons. split; [|constructor]. intros posted w Hposted.
  vm_compute in Hposted. injection Hposted as <-. by vm_compute.
Defined.

Lemma both_cells_store_the_same_posts_witness :
  Scraper.posts_of
    (Scraper.after Z (answer timed_response) tick timed_parser fresh_kernel) =
    prod_map id Selenium.squeezed <$>
      Selenium.posts_of
        (Selenium.after Z sample_chrome sample_driver_get sample_sleep
           sample_script (returns page_markup) sample_quit frozen_clock
           timed_parser sample_prettify sample_strptime fresh_browser_kernel).
Proof.
  apply (both_cells_store_the_same_posts Z Z
           (answer timed_response) tick
           sample_chrome sample_driver_get sample_sleep sample_script
           (returns page_markup) sample_quit frozen_clock
           timed_parser sample_prettify sample_strptime
           fresh_kernel fresh_browser_kernel timed_response 1 page_title).
  - reflexivity.
  - reflexivity.
  - exact (sample_browser_shows page_markup).
  - by vm_compute.
  - exact timed_page_readable.
  - exact timed_page_timed.
  - exact timed_page_recent.
Defined.

End MoreWitnesses.
